(** * biomero-schema: the workflow manifest models and their validation

    [src/biomero_schema/models.py] declares thirteen pydantic models.  The
    file holds no function of its own: what a document validates to is
    decided by the field declarations (type annotation, [Field] default,
    alias, [min_length]) and by the [Config] of each class, as pydantic 2
    reads them.  This development therefore has two layers:

    - the reading of one declaration (lax-mode scalar validators, [Literal],
      [Optional], [List], the two unions, alias and default handling,
      collection of every error of a model), written once;
    - the thirteen models, each a record and a validator that lists the
      fields in the order and with the arguments of the source. *)

From Stdlib Require Import ZArith Ascii String.
From stdpp Require Import base option list gmap strings fin_maps.

#[local] Set Warnings "-register-all".
#[local] Open Scope string_scope.

(** ** Floating-point numbers

    [ram-min], [cores-min] and [device-memory-min] are [float] fields and
    [default-value] may hold one.  Binary64 arithmetic plays no part in the
    models; only three conversions of lax validation touch it.  They are
    kept abstract, so that every theorem below holds whatever they do:
    [float_of_int] (an [int] given to a float field, or a [bool], read
    as 1 or 0; [None] when it overflows), [float_of_str] (a numeric string given to a float field)
    and [float_to_int] (a float with no fractional part, used when a float
    is given to a bool field). *)
Class Floats := {
  float : Type;
  float_of_int : Z -> option float;
  float_of_str : string -> option float;
  float_to_int : float -> option Z
}.

(** A carrier on which documents can be run: the floats that are whole
    numbers of magnitude at most 2^53, where the three conversions are
    exact.  A numeric string is read when it is a run of decimal digits. *)
Fixpoint digits_value (acc : Z) (s : string) : option Z :=
  match s with
  | EmptyString => Some acc
  | String c s' =>
      let n := Z.of_nat (nat_of_ascii c) in
      if ((48 <=? n) && (n <=? 57))%Z
      then digits_value (10 * acc + (n - 48)) s'
      else None
  end.

Definition whole_in_range (z : Z) : option Z :=
  if (Z.abs z <=? 2 ^ 53)%Z then Some z else None.

Definition whole_of_str (s : string) : option Z :=
  match s with
  | EmptyString => None
  | _ => match digits_value 0 s with
         | Some z => whole_in_range z
         | None => None
         end
  end.

Definition whole_floats : Floats :=
  {| float := Z;
     float_of_int := whole_in_range;
     float_of_str := whole_of_str;
     float_to_int := Some |}.

(** ** Documents, error lines and results *)

Section Validation.
Context {F : Floats}.

(** A decoded document: what a YAML or JSON reader hands to
    [model_validate]. *)
Inductive value :=
| VNull
| VBool (b : bool)
| VInt (z : Z)
| VFloat (f : float)
| VStr (s : string)
| VList (l : list value)
| VDict (d : gmap string value).

Abbreviation dict := (gmap string value).

Inductive loc_item :=
| Key (k : string)
| Index (i : nat).

(** The [type] of an error line, for the lines these models can raise. *)
Inductive error_type :=
| missing
| model_type
| string_type
| int_type
| bool_type
| bool_parsing
| float_type
| float_parsing
| list_type
| literal_error (expected : list string)
| too_short (min_length actual_length : nat).

Record error := Error {
  err_type : error_type;
  err_loc : list loc_item;
  err_input : value
}.

(** Validation returns the value or every error line it met. *)
Inductive result (A : Type) :=
| Ok (a : A)
| Err (es : list error).
Arguments Ok {A} a.
Arguments Err {A} es.

Definition validator (A : Type) := value -> result A.

Definition fail {A} (t : error_type) (v : value) : result A :=
  Err [Error t [] v].

Definition under (i : loc_item) (e : error) : error :=
  Error (err_type e) (i :: err_loc e) (err_input e).

Definition at_loc {A} (i : loc_item) (r : result A) : result A :=
  match r with
  | Ok a => Ok a
  | Err es => Err (under i <$> es)
  end.

Definition rmap {A B} (f : A -> B) (r : result A) : result B :=
  match r with
  | Ok a => Ok (f a)
  | Err es => Err es
  end.

(** The fields of a model are validated one after the other and the error
    lines of all of them are returned together. *)
Definition ap {A B} (rf : result (A -> B)) (ra : result A) : result B :=
  match rf, ra with
  | Ok f, Ok a => Ok (f a)
  | Ok _, Err es => Err es
  | Err es, Ok _ => Err es
  | Err es1, Err es2 => Err (es1 ++ es2)
  end.

Infix "<*>" := ap (at level 61, left associativity).

(** ** Scalar validators (lax mode, Python input) *)

Definition str_v : validator string := fun v =>
  match v with
  | VStr s => Ok s
  | _ => fail string_type v
  end.

Definition ascii_lower (c : ascii) : ascii :=
  let n := nat_of_ascii c in
  if (65 <=? n)%nat && (n <=? 90)%nat then ascii_of_nat (n + 32) else c.

Fixpoint lower (s : string) : string :=
  match s with
  | EmptyString => EmptyString
  | String c s' => String (ascii_lower c) (lower s')
  end.

Definition bool_of_str (s : string) : option bool :=
  if bool_decide (s = "0") then Some false
  else if bool_decide (lower s ∈ ["f"; "n"; "no"; "off"; "false"]) then Some false
  else if bool_decide (s = "1") then Some true
  else if bool_decide (lower s ∈ ["t"; "y"; "on"; "yes"; "true"]) then Some true
  else None.

Definition bool_of_int (z : Z) : option bool :=
  if bool_decide (z = 0%Z) then Some false
  else if bool_decide (z = 1%Z) then Some true
  else None.

Definition bool_v : validator bool := fun v =>
  match v with
  | VBool b => Ok b
  | VStr s =>
      match bool_of_str s with
      | Some b => Ok b
      | None => fail bool_parsing v
      end
  | VInt z =>
      match bool_of_int z with
      | Some b => Ok b
      | None => fail bool_parsing v
      end
  | VFloat f =>
      match float_to_int f with
      | Some z =>
          match bool_of_int z with
          | Some b => Ok b
          | None => fail bool_parsing v
          end
      | None => fail bool_type v
      end
  | _ => fail bool_type v
  end.

Definition float_v : validator float := fun v =>
  match v with
  | VFloat f => Ok f
  | VStr s =>
      match float_of_str s with
      | Some f => Ok f
      | None => fail float_parsing v
      end
  | VInt z =>
      match float_of_int z with
      | Some f => Ok f
      | None => fail float_type v
      end
  | VBool b =>
      match float_of_int (if b then 1 else 0) with
      | Some f => Ok f
      | None => fail float_type v
      end
  | _ => fail float_type v
  end.

(** [Literal[...]] of strings: the input must be one of the listed
    strings; anything else, a non-string included, is a [literal_error]
    that carries the allowed set. *)
Definition literal_v (expected : list string) : validator string := fun v =>
  match v with
  | VStr s =>
      if bool_decide (s ∈ expected) then Ok s
      else fail (literal_error expected) v
  | _ => fail (literal_error expected) v
  end.

(** [Optional[T]]: [None] passes as itself. *)
Definition optional_v {A} (val : validator A) : validator (option A) := fun v =>
  match v with
  | VNull => Ok None
  | _ => rmap Some (val v)
  end.

(** [List[T]]: every item is validated, the error lines of all items are
    kept under their index, and the length is checked afterwards. *)
Fixpoint list_items {A} (val : validator A) (i : nat) (l : list value)
  : result (list A) :=
  match l with
  | [] => Ok []
  | v :: l' =>
      Ok cons <*> at_loc (Index i) (val v) <*> list_items val (S i) l'
  end.

Definition list_v {A} (min_length : nat) (val : validator A)
  : validator (list A) := fun v =>
  match v with
  | VList l =>
      match list_items val 0 l with
      | Ok xs =>
          if (length xs <? min_length)%nat
          then fail (too_short min_length (length xs)) v
          else Ok xs
      | Err es => Err es
      end
  | _ => fail list_type v
  end.

(** [Union[str, int, float, bool]] in smart mode: an input that is exactly
    of one member type is returned as that member, unchanged; any other
    input fails with one line per member, under the member's label. *)
Inductive scalar :=
| SStr (s : string)
| SInt (z : Z)
| SFloat (f : float)
| SBool (b : bool).

Definition scalar_v : validator scalar := fun v =>
  match v with
  | VStr s => Ok (SStr s)
  | VInt z => Ok (SInt z)
  | VFloat f => Ok (SFloat f)
  | VBool b => Ok (SBool b)
  | _ => Err [Error string_type [Key "str"] v;
              Error int_type [Key "int"] v;
              Error float_type [Key "float"] v;
              Error bool_type [Key "bool"] v]
  end.

(** [Union[str, List[str]]]. *)
Inductive str_or_list :=
| OneStr (s : string)
| ManyStr (l : list string).

Definition str_or_list_v : validator str_or_list := fun v =>
  match v with
  | VStr s => Ok (OneStr s)
  | VList _ =>
      match at_loc (Key "list[str]") (list_v 0 str_v v) with
      | Ok l => Ok (ManyStr l)
      | Err es => Err (Error string_type [Key "str"] v :: es)
      end
  | _ => Err [Error string_type [Key "str"] v;
              Error list_type [Key "list[str]"] v]
  end.

(** ** Fields and models *)

(** The two switches of [class Config] that the source sets.  A class
    without a [Config] has both off; the configuration of a model is not
    passed on to the models nested in it. *)
Record Config := {
  populate_by_name : bool;
  validate_by_name : bool
}.

Definition no_config : Config :=
  {| populate_by_name := false; validate_by_name := false |}.

Definition by_name (c : Config) : bool :=
  populate_by_name c || validate_by_name c.

(** [Field(...)] against [Field(x)]. *)
Inductive default_spec (A : Type) :=
| Required
| Default (a : A).
Arguments Required {A}.
Arguments Default {A} a.

(** The key a field is read from: its alias (its name when it has none),
    and, when the class allows it, its name as second choice. *)
Definition lookup_field (c : Config) (name : string) (alias : option string)
    (d : dict) : option (string * value) :=
  let a := default name alias in
  match d !! a with
  | Some v => Some (a, v)
  | None =>
      if by_name c
      then match d !! name with
           | Some v => Some (name, v)
           | None => None
           end
      else None
  end.

(** One field of a model.  A key that is present is validated and its
    error lines are put under that key; an absent key takes the declared
    default as it stands (a default is not validated), and is a [missing]
    line under the alias when the field has none. *)
Definition field {A} (c : Config) (name : string) (alias : option string)
    (dflt : default_spec A) (val : validator A) (d : dict) : result A :=
  match lookup_field c name alias d with
  | Some (k, v) => at_loc (Key k) (val v)
  | None =>
      match dflt with
      | Default a => Ok a
      | Required => Err [Error missing [Key (default name alias)] (VDict d)]
      end
  end.

(** A model is built from a dictionary; keys that no field reads are
    ignored. *)
Definition model {A} (body : dict -> result A) : validator A := fun v =>
  match v with
  | VDict d => body d
  | _ => fail model_type v
  end.

(** ** The models of [models.py]

    Each validator lists the fields of its class in source order:
    internal name, alias, default, type. *)

Definition alias (a : string) : option string := Some a.
Definition no_alias : option string := None.

Record Author := {
  author_name : string;
  author_email : option string;
  author_affiliations : option (list string)
}.

Definition validate_Author : validator Author := model (fun d =>
  Ok Build_Author
  <*> field no_config "name" no_alias Required str_v d
  <*> field no_config "email" no_alias (Default None) (optional_v str_v) d
  <*> field no_config "affiliations" no_alias (Default None)
        (optional_v (list_v 0 str_v)) d).

Record Institution := {
  institution_id : string;
  institution_name : option string
}.

Definition validate_Institution : validator Institution := model (fun d =>
  Ok Build_Institution
  <*> field no_config "id" no_alias Required str_v d
  <*> field no_config "name" no_alias (Default None) (optional_v str_v) d).

Record Citation := {
  citation_name : string;
  citation_doi : option string;
  citation_license : string;
  citation_description : option string
}.

Definition validate_Citation : validator Citation := model (fun d =>
  Ok Build_Citation
  <*> field no_config "name" no_alias Required str_v d
  <*> field no_config "doi" no_alias (Default None) (optional_v str_v) d
  <*> field no_config "license" no_alias Required str_v d
  <*> field no_config "description" no_alias (Default None)
        (optional_v str_v) d).

Definition container_types : list string := ["oci"; "singularity"].

Record ContainerImage := {
  image : string;
  image_type : string;
  platforms : option (list string)
}.

Definition validate_ContainerImage : validator ContainerImage := model (fun d =>
  Ok Build_ContainerImage
  <*> field no_config "image" no_alias Required str_v d
  <*> field no_config "type" no_alias Required (literal_v container_types) d
  <*> field no_config "platforms" no_alias (Default None)
        (optional_v (list_v 0 str_v)) d).

Record CudaRequirements := {
  device_memory_min : option float;
  cuda_compute_capability : option str_or_list
}.

Definition validate_CudaRequirements : validator CudaRequirements :=
  model (fun d =>
  Ok Build_CudaRequirements
  <*> field no_config "device_memory_min" (alias "device-memory-min")
        (Default None) (optional_v float_v) d
  <*> field no_config "cuda_compute_capability"
        (alias "cuda-compute-capability") (Default None)
        (optional_v str_or_list_v) d).

Record Resources := {
  networking : option bool;
  ram_min : option float;
  cores_min : option float;
  gpu : option bool;
  cuda_requirements : option CudaRequirements;
  cpuAVX : option bool;
  cpuAVX2 : option bool
}.

Definition validate_Resources : validator Resources := model (fun d =>
  Ok Build_Resources
  <*> field no_config "networking" no_alias (Default None) (optional_v bool_v) d
  <*> field no_config "ram_min" (alias "ram-min") (Default None)
        (optional_v float_v) d
  <*> field no_config "cores_min" (alias "cores-min") (Default None)
        (optional_v float_v) d
  <*> field no_config "gpu" no_alias (Default None) (optional_v bool_v) d
  <*> field no_config "cuda_requirements" (alias "cuda-requirements")
        (Default None) (optional_v validate_CudaRequirements) d
  <*> field no_config "cpuAVX" no_alias (Default None) (optional_v bool_v) d
  <*> field no_config "cpuAVX2" no_alias (Default None) (optional_v bool_v) d).

Record Configuration := {
  input_folder : option string;
  output_folder : option string;
  resources : option Resources
}.

Definition validate_Configuration : validator Configuration := model (fun d =>
  Ok Build_Configuration
  <*> field no_config "input_folder" no_alias (Default None)
        (optional_v str_v) d
  <*> field no_config "output_folder" no_alias (Default None)
        (optional_v str_v) d
  <*> field no_config "resources" no_alias (Default None)
        (optional_v validate_Resources) d).

(** The three classes of type-specific fields.  No other class of the
    file refers to them. *)
Record FileParameter := {
  file_format : string
}.

Definition validate_FileParameter : validator FileParameter := model (fun d =>
  Ok Build_FileParameter
  <*> field no_config "format" no_alias Required str_v d).

Definition image_sub_types : list string :=
  ["grayscale"; "color"; "binary"; "labeled"; "class"].

Definition image_formats : list string :=
  ["tif"; "png"; "jpg"; "jpeg"; "tiff"; "ometiff"].

Record ImageParameter := {
  image_sub_type : string;
  image_format : string
}.

Definition validate_ImageParameter : validator ImageParameter := model (fun d =>
  Ok Build_ImageParameter
  <*> field no_config "sub_type" (alias "sub-type") Required
        (literal_v image_sub_types) d
  <*> field no_config "format" no_alias Required (literal_v image_formats) d).

Definition array_formats : list string := ["npy"; "npz"].

Record ArrayParameter := {
  array_format : string
}.

Definition validate_ArrayParameter : validator ArrayParameter := model (fun d =>
  Ok Build_ArrayParameter
  <*> field no_config "format" no_alias Required (literal_v array_formats) d).

Definition parameter_types : list string :=
  ["Number"; "String"; "integer"; "float"; "boolean"; "string"; "file";
   "image"; "array"].

Record Parameter_ := {
  param_id : string;
  param_type : string;
  param_name : option string;
  param_description : option string;
  value_key : option string;
  command_line_flag : option string;
  default_value : option scalar;
  optional : option bool;
  set_by_server : option bool;
  format : option string;
  sub_type : option string
}.

Definition validate_Parameter : validator Parameter_ := model (fun d =>
  Ok Build_Parameter_
  <*> field no_config "id" no_alias Required str_v d
  <*> field no_config "type" no_alias Required (literal_v parameter_types) d
  <*> field no_config "name" no_alias (Default None) (optional_v str_v) d
  <*> field no_config "description" no_alias (Default None)
        (optional_v str_v) d
  <*> field no_config "value_key" (alias "value-key") (Default None)
        (optional_v str_v) d
  <*> field no_config "command_line_flag" (alias "command-line-flag")
        (Default None) (optional_v str_v) d
  <*> field no_config "default_value" (alias "default-value") (Default None)
        (optional_v scalar_v) d
  <*> field no_config "optional" no_alias (Default None) (optional_v bool_v) d
  <*> field no_config "set_by_server" (alias "set-by-server") (Default None)
        (optional_v bool_v) d
  <*> field no_config "format" no_alias (Default None) (optional_v str_v) d
  <*> field no_config "sub_type" (alias "sub-type") (Default None)
        (optional_v str_v) d).

Definition output_types : list string := ["Number"; "String"].

Record OutputParameter := {
  out_id : string;
  out_type : string;
  out_name : option string;
  out_description : option string;
  out_value_key : option string;
  out_command_line_flag : option string;
  out_default_value : option scalar;
  out_optional : option bool;
  out_set_by_server : option bool
}.

Definition validate_OutputParameter : validator OutputParameter :=
  model (fun d =>
  Ok Build_OutputParameter
  <*> field no_config "id" no_alias Required str_v d
  <*> field no_config "type" no_alias Required (literal_v output_types) d
  <*> field no_config "name" no_alias (Default None) (optional_v str_v) d
  <*> field no_config "description" no_alias (Default None)
        (optional_v str_v) d
  <*> field no_config "value_key" (alias "value-key") (Default None)
        (optional_v str_v) d
  <*> field no_config "command_line_flag" (alias "command-line-flag")
        (Default None) (optional_v str_v) d
  <*> field no_config "default_value" (alias "default-value") (Default None)
        (optional_v scalar_v) d
  <*> field no_config "optional" no_alias (Default None) (optional_v bool_v) d
  <*> field no_config "set_by_server" (alias "set-by-server") (Default None)
        (optional_v bool_v) d).

Definition problem_classes : list string :=
  ["object-segmentation"; "pixel-classification"; "object-counting";
   "object-detection"; "filament-tree-tracing"; "filament-networks-tracing";
   "landmark-detection"; "particle-tracking"; "object-tracking"].

Record WorkflowSchema := {
  name : string;
  description : string;
  schema_version : string;
  authors : list Author;
  institutions : list Institution;
  citations : list Citation;
  problem_class : option string;
  container_image : ContainerImage;
  configuration : option Configuration;
  inputs : list Parameter_;
  outputs : list OutputParameter;
  command_line : string
}.

Definition WorkflowSchema_Config : Config :=
  {| populate_by_name := true; validate_by_name := true |}.

Definition validate_WorkflowSchema : validator WorkflowSchema :=
  let c := WorkflowSchema_Config in
  model (fun d =>
  Ok Build_WorkflowSchema
  <*> field c "name" no_alias Required str_v d
  <*> field c "description" no_alias Required str_v d
  <*> field c "schema_version" (alias "schema-version") Required str_v d
  <*> field c "authors" no_alias (Default []) (list_v 0 validate_Author) d
  <*> field c "institutions" no_alias (Default [])
        (list_v 0 validate_Institution) d
  <*> field c "citations" no_alias (Default []) (list_v 1 validate_Citation) d
  <*> field c "problem_class" (alias "problem-class") (Default None)
        (optional_v (literal_v problem_classes)) d
  <*> field c "container_image" (alias "container-image") Required
        validate_ContainerImage d
  <*> field c "configuration" no_alias (Default None)
        (optional_v validate_Configuration) d
  <*> field c "inputs" no_alias Required (list_v 0 validate_Parameter) d
  <*> field c "outputs" no_alias (Default [])
        (list_v 0 validate_OutputParameter) d
  <*> field c "command_line" (alias "command-line") Required str_v d).

(** [validate(document)]: the root model applied to the document. *)
Definition validate (doc : value) : result WorkflowSchema :=
  validate_WorkflowSchema doc.

(** The fields declared with [Field(...)] in [WorkflowSchema], as pairs
    of internal name and alias. *)
Definition required_fields : list (string * string) :=
  [("name", "name"); ("description", "description");
   ("schema_version", "schema-version");
   ("container_image", "container-image"); ("inputs", "inputs");
   ("command_line", "command-line")].

(** The aliased fields of the root model and of the nested models, as
    pairs of internal name and alias. *)
Definition WorkflowSchema_aliases : list (string * string) :=
  [("schema_version", "schema-version"); ("problem_class", "problem-class");
   ("container_image", "container-image"); ("command_line", "command-line")].

Definition Parameter_aliases : list (string * string) :=
  [("value_key", "value-key"); ("command_line_flag", "command-line-flag");
   ("default_value", "default-value"); ("set_by_server", "set-by-server");
   ("sub_type", "sub-type")].

Definition OutputParameter_aliases : list (string * string) :=
  [("value_key", "value-key"); ("command_line_flag", "command-line-flag");
   ("default_value", "default-value"); ("set_by_server", "set-by-server")].

Definition Resources_aliases : list (string * string) :=
  [("ram_min", "ram-min"); ("cores_min", "cores-min");
   ("cuda_requirements", "cuda-requirements")].

Definition CudaRequirements_aliases : list (string * string) :=
  [("device_memory_min", "device-memory-min");
   ("cuda_compute_capability", "cuda-compute-capability")].

(** The record of a successful validation, the error lines forgotten. *)
Definition record_of {A} (r : result A) : option A :=
  match r with
  | Ok a => Some a
  | Err _ => None
  end.

(** [fails_with e r]: validation failed and [e] is among its lines. *)
Definition fails_with {A} (e : error) (r : result A) : Prop :=
  match r with
  | Ok _ => False
  | Err es => e ∈ es
  end.

(** [outside allowed v]: [v] is not one of the strings of [allowed]. *)
Definition outside (allowed : list string) (v : value) : Prop :=
  forall s, v = VStr s -> s ∉ allowed.

(** Modelled from the spec: the five error kinds of its error surface,
    which [models.py] does not name.  Each error line of the validation
    is filed under the kind whose description fits it: an absent required
    key, a value outside a literal set, a list shorter than its minimum
    (the spec files the empty required list under uniqueness), and a value
    of the wrong type.  No line of the validation is a cross-field one. *)
Inductive ErrorKind :=
| MissingRequiredField
| TypeMismatch
| InvalidEnumValue
| UniquenessViolation
| CrossFieldConstraintViolation.

Definition kind_of (t : error_type) : ErrorKind :=
  match t with
  | missing => MissingRequiredField
  | literal_error _ => InvalidEnumValue
  | too_short _ _ => UniquenessViolation
  | model_type | string_type | int_type | bool_type | bool_parsing
  | float_type | float_parsing | list_type => TypeMismatch
  end.

(** ** Record updates used in the statements *)

Definition with_format (f : option string) (p : Parameter_) : Parameter_ :=
  {| param_id := param_id p; param_type := param_type p;
     param_name := param_name p; param_description := param_description p;
     value_key := value_key p; command_line_flag := command_line_flag p;
     default_value := default_value p; optional := optional p;
     set_by_server := set_by_server p; format := f;
     sub_type := sub_type p |}.

Definition with_sub_type (s : option string) (p : Parameter_) : Parameter_ :=
  {| param_id := param_id p; param_type := param_type p;
     param_name := param_name p; param_description := param_description p;
     value_key := value_key p; command_line_flag := command_line_flag p;
     default_value := default_value p; optional := optional p;
     set_by_server := set_by_server p; format := format p;
     sub_type := s |}.

Definition with_institutions (l : list Institution) (w : WorkflowSchema)
  : WorkflowSchema :=
  {| name := name w; description := description w;
     schema_version := schema_version w; authors := authors w;
     institutions := l; citations := citations w;
     problem_class := problem_class w; container_image := container_image w;
     configuration := configuration w; inputs := inputs w;
     outputs := outputs w; command_line := command_line w |}.

Definition with_inputs (l : list Parameter_) (w : WorkflowSchema)
  : WorkflowSchema :=
  {| name := name w; description := description w;
     schema_version := schema_version w; authors := authors w;
     institutions := institutions w; citations := citations w;
     problem_class := problem_class w; container_image := container_image w;
     configuration := configuration w; inputs := l;
     outputs := outputs w; command_line := command_line w |}.

Definition with_outputs (l : list OutputParameter) (w : WorkflowSchema)
  : WorkflowSchema :=
  {| name := name w; description := description w;
     schema_version := schema_version w; authors := authors w;
     institutions := institutions w; citations := citations w;
     problem_class := problem_class w; container_image := container_image w;
     configuration := configuration w; inputs := inputs w;
     outputs := l; command_line := command_line w |}.

(** ** Serialization *)

(** Modelled from the spec: [models.py] declares the fields and writes no
    serializer of its own; the spec's [serialize] is read as the
    [model_dump] that the classes inherit from the library: the record as
    a document, the fields in declaration order, an unset optional field
    as null.  With [by_alias] a field is written under its alias, without
    it under its internal name (the library's default). *)
Definition dump_opt {A} (f : A -> value) (o : option A) : value :=
  match o with
  | Some a => f a
  | None => VNull
  end.

Definition dump_list {A} (f : A -> value) (l : list A) : value :=
  VList (f <$> l).

Definition dump_scalar (x : scalar) : value :=
  match x with
  | SStr s => VStr s
  | SInt z => VInt z
  | SFloat f => VFloat f
  | SBool b => VBool b
  end.

Definition dump_str_or_list (x : str_or_list) : value :=
  match x with
  | OneStr s => VStr s
  | ManyStr l => dump_list VStr l
  end.

Definition obj (l : list (string * value)) : value :=
  VDict (list_to_map l).

Definition key (by_alias : bool) (name alias : string) : string :=
  if by_alias then alias else name.

Definition dump_Author (b : bool) (a : Author) : value :=
  obj [("name", VStr (author_name a));
       ("email", dump_opt VStr (author_email a));
       ("affiliations", dump_opt (dump_list VStr) (author_affiliations a))].

Definition dump_Institution (b : bool) (i : Institution) : value :=
  obj [("id", VStr (institution_id i));
       ("name", dump_opt VStr (institution_name i))].

Definition dump_Citation (b : bool) (c : Citation) : value :=
  obj [("name", VStr (citation_name c));
       ("doi", dump_opt VStr (citation_doi c));
       ("license", VStr (citation_license c));
       ("description", dump_opt VStr (citation_description c))].

Definition dump_ContainerImage (b : bool) (c : ContainerImage) : value :=
  obj [("image", VStr (image c));
       ("type", VStr (image_type c));
       ("platforms", dump_opt (dump_list VStr) (platforms c))].

Definition dump_CudaRequirements (b : bool) (c : CudaRequirements) : value :=
  obj [(key b "device_memory_min" "device-memory-min",
        dump_opt VFloat (device_memory_min c));
       (key b "cuda_compute_capability" "cuda-compute-capability",
        dump_opt dump_str_or_list (cuda_compute_capability c))].

Definition dump_Resources (b : bool) (r : Resources) : value :=
  obj [("networking", dump_opt VBool (networking r));
       (key b "ram_min" "ram-min", dump_opt VFloat (ram_min r));
       (key b "cores_min" "cores-min", dump_opt VFloat (cores_min r));
       ("gpu", dump_opt VBool (gpu r));
       (key b "cuda_requirements" "cuda-requirements",
        dump_opt (dump_CudaRequirements b) (cuda_requirements r));
       ("cpuAVX", dump_opt VBool (cpuAVX r));
       ("cpuAVX2", dump_opt VBool (cpuAVX2 r))].

Definition dump_Configuration (b : bool) (c : Configuration) : value :=
  obj [("input_folder", dump_opt VStr (input_folder c));
       ("output_folder", dump_opt VStr (output_folder c));
       ("resources", dump_opt (dump_Resources b) (resources c))].

Definition dump_Parameter (b : bool) (p : Parameter_) : value :=
  obj [("id", VStr (param_id p));
       ("type", VStr (param_type p));
       ("name", dump_opt VStr (param_name p));
       ("description", dump_opt VStr (param_description p));
       (key b "value_key" "value-key", dump_opt VStr (value_key p));
       (key b "command_line_flag" "command-line-flag",
        dump_opt VStr (command_line_flag p));
       (key b "default_value" "default-value",
        dump_opt dump_scalar (default_value p));
       ("optional", dump_opt VBool (optional p));
       (key b "set_by_server" "set-by-server",
        dump_opt VBool (set_by_server p));
       ("format", dump_opt VStr (format p));
       (key b "sub_type" "sub-type", dump_opt VStr (sub_type p))].

Definition dump_OutputParameter (b : bool) (p : OutputParameter) : value :=
  obj [("id", VStr (out_id p));
       ("type", VStr (out_type p));
       ("name", dump_opt VStr (out_name p));
       ("description", dump_opt VStr (out_description p));
       (key b "value_key" "value-key", dump_opt VStr (out_value_key p));
       (key b "command_line_flag" "command-line-flag",
        dump_opt VStr (out_command_line_flag p));
       (key b "default_value" "default-value",
        dump_opt dump_scalar (out_default_value p));
       ("optional", dump_opt VBool (out_optional p));
       (key b "set_by_server" "set-by-server",
        dump_opt VBool (out_set_by_server p))].

Definition dump_WorkflowSchema (b : bool) (w : WorkflowSchema) : value :=
  obj [("name", VStr (name w));
       ("description", VStr (description w));
       (key b "schema_version" "schema-version", VStr (schema_version w));
       ("authors", dump_list (dump_Author b) (authors w));
       ("institutions", dump_list (dump_Institution b) (institutions w));
       ("citations", dump_list (dump_Citation b) (citations w));
       (key b "problem_class" "problem-class",
        dump_opt VStr (problem_class w));
       (key b "container_image" "container-image",
        dump_ContainerImage b (container_image w));
       ("configuration",
        dump_opt (dump_Configuration b) (configuration w));
       ("inputs", dump_list (dump_Parameter b) (inputs w));
       ("outputs", dump_list (dump_OutputParameter b) (outputs w));
       (key b "command_line" "command-line", VStr (command_line w))].

(** Modelled from the spec: [serialize] is the dump by alias, the
    spelling the spec calls canonical for output. *)
Definition serialize (w : WorkflowSchema) : value :=
  dump_WorkflowSchema true w.

(** [extends doc out]: the document [out] holds every field of [doc],
    none removed and none altered; it may hold more. *)
Inductive extends : value -> value -> Prop :=
| extends_same v : extends v v
| extends_list l1 l2 :
    Forall2 extends l1 l2 -> extends (VList l1) (VList l2)
| extends_dict d1 d2 :
    (forall k v1, d1 !! k = Some v1 ->
       exists v2, d2 !! k = Some v2 /\ extends v1 v2) ->
    extends (VDict d1) (VDict d2).

(** The value found in a document along a path of keys and indices. *)
Fixpoint at_path (p : list loc_item) (v : value) : option value :=
  match p, v with
  | [], _ => Some v
  | Key k :: p', VDict d =>
      match d !! k with
      | Some w => at_path p' w
      | None => None
      end
  | Index i :: p', VList l =>
      match l !! i with
      | Some w => at_path p' w
      | None => None
      end
  | _, _ => None
  end.

(** [redumps val dmp]: what [val] accepted is accepted again, as the
    same value, once dumped by [dmp]. *)
Definition redumps {A} (val : validator A) (dmp : A -> value) : Prop :=
  forall v a, val v = Ok a -> val (dmp a) = Ok a.

(** ** Minimal documents: the required keys and nothing else *)

Definition minimal_Citation (c : string * string) : value :=
  obj [("name", VStr c.1); ("license", VStr c.2)].

Definition minimal_Parameter (p : string * string) : value :=
  obj [("id", VStr p.1); ("type", VStr p.2)].

Definition minimal_document (nm descr ver : string)
    (cits : list (string * string)) (img ty : string)
    (ins : list (string * string)) (cmd : string) : value :=
  obj [("name", VStr nm);
       ("description", VStr descr);
       ("schema-version", VStr ver);
       ("citations", VList (minimal_Citation <$> cits));
       ("container-image", obj [("image", VStr img); ("type", VStr ty)]);
       ("inputs", VList (minimal_Parameter <$> ins));
       ("command-line", VStr cmd)].

Definition unset_Citation (c : string * string) : Citation :=
  {| citation_name := c.1; citation_doi := None; citation_license := c.2;
     citation_description := None |}.

Definition unset_Parameter (p : string * string) : Parameter_ :=
  {| param_id := p.1; param_type := p.2; param_name := None;
     param_description := None; value_key := None;
     command_line_flag := None; default_value := None; optional := None;
     set_by_server := None; format := None; sub_type := None |}.

Definition unset_WorkflowSchema (nm descr ver : string)
    (cits : list (string * string)) (img ty : string)
    (ins : list (string * string)) (cmd : string) : WorkflowSchema :=
  {| name := nm; description := descr; schema_version := ver;
     authors := []; institutions := [];
     citations := unset_Citation <$> cits; problem_class := None;
     container_image :=
       {| image := img; image_type := ty; platforms := None |};
     configuration := None; inputs := unset_Parameter <$> ins;
     outputs := []; command_line := cmd |}.

(** ** Further definitions used in the statements *)

(** The keys that each model reads: the alias of every field (its name
    when it has none) and, in the root model, the internal names too. *)
Definition WorkflowSchema_keys : list string :=
  ["name"; "description"; "schema-version"; "schema_version"; "authors";
   "institutions"; "citations"; "problem-class"; "problem_class";
   "container-image"; "container_image"; "configuration"; "inputs";
   "outputs"; "command-line"; "command_line"].

Definition Author_keys : list string := ["name"; "email"; "affiliations"].

Definition Institution_keys : list string := ["id"; "name"].

Definition Citation_keys : list string :=
  ["name"; "doi"; "license"; "description"].

Definition ContainerImage_keys : list string := ["image"; "type"; "platforms"].

Definition CudaRequirements_keys : list string :=
  ["device-memory-min"; "cuda-compute-capability"].

Definition Resources_keys : list string :=
  ["networking"; "ram-min"; "cores-min"; "gpu"; "cuda-requirements";
   "cpuAVX"; "cpuAVX2"].

Definition Configuration_keys : list string :=
  ["input_folder"; "output_folder"; "resources"].

Definition Parameter_keys : list string :=
  ["id"; "type"; "name"; "description"; "value-key"; "command-line-flag";
   "default-value"; "optional"; "set-by-server"; "format"; "sub-type"].

Definition OutputParameter_keys : list string :=
  ["id"; "type"; "name"; "description"; "value-key"; "command-line-flag";
   "default-value"; "optional"; "set-by-server"].

(** The keys of the fields of [Parameter] declared [Optional[...]]. *)
Definition Parameter_optional_keys : list string :=
  ["name"; "description"; "value-key"; "command-line-flag"; "default-value";
   "optional"; "set-by-server"; "format"; "sub-type"].

(** The fields of [WorkflowSchema] declared [List[...]]. *)
Definition WorkflowSchema_list_keys : list string :=
  ["authors"; "institutions"; "citations"; "inputs"; "outputs"].

(** An output parameter seen as a parameter without type-specific
    fields. *)
Definition as_parameter (o : OutputParameter) : Parameter_ :=
  {| param_id := out_id o; param_type := out_type o;
     param_name := out_name o; param_description := out_description o;
     value_key := out_value_key o;
     command_line_flag := out_command_line_flag o;
     default_value := out_default_value o; optional := out_optional o;
     set_by_server := out_set_by_server o; format := None;
     sub_type := None |}.

(** ** Documents that come back from serialization

    [completes doc out]: [out] holds every field of [doc] unaltered, and
    what it holds besides are defaults (null or the empty list). *)
Inductive completes : value -> value -> Prop :=
| completes_same v : completes v v
| completes_list l1 l2 :
    Forall2 completes l1 l2 -> completes (VList l1) (VList l2)
| completes_dict d1 d2 :
    (forall k v1, d1 !! k = Some v1 ->
       exists v2, d2 !! k = Some v2 /\ completes v1 v2) ->
    (forall k, d1 !! k = None ->
       d2 !! k = None \/ d2 !! k = Some VNull \/ d2 !! k = Some (VList [])) ->
    completes (VDict d1) (VDict d2).

(** The aliases of the fields of [WorkflowSchema] (the names of those
    that have no alias). *)
Definition WorkflowSchema_alias_keys : list string :=
  ["name"; "description"; "schema-version"; "authors"; "institutions";
   "citations"; "problem-class"; "container-image"; "configuration";
   "inputs"; "outputs"; "command-line"].

(** Shapes of values: a boolean, a float, null or a value of a given
    shape, a list of values of a given shape. *)
Definition is_bool (v : value) : Prop := exists b, v = VBool b.
Definition is_float (v : value) : Prop := exists f, v = VFloat f.
Definition any_value (v : value) : Prop := True.
Definition nullable (P : value -> Prop) (v : value) : Prop :=
  v = VNull \/ P v.
Definition items (P : value -> Prop) (v : value) : Prop :=
  exists l, v = VList l /\ Forall P l.

(** [only_keys keys d]: every key of [d] is one of [keys].
    [at_key k P d]: what [d] holds under [k], if anything, satisfies [P]. *)
Definition only_keys (keys : list string) (d : dict) : Prop :=
  forall k v, d !! k = Some v -> k ∈ keys.
Definition at_key (k : string) (P : value -> Prop) (d : dict) : Prop :=
  forall v, d !! k = Some v -> P v.

(** A dictionary with only the keys [keys] whose constrained keys have
    the given shapes. *)
Definition dict_of (keys : list string)
    (shapes : list (string * (value -> Prop))) (v : value) : Prop :=
  exists d, v = VDict d /\ only_keys keys d
            /\ Forall (λ s, at_key s.1 s.2 d) shapes.

(** Plain documents: every field is spelled by its alias, no key is
    unknown to the model, and the fields declared [bool] or [float] hold
    a boolean or a float (or null), so that lax conversion changes
    nothing. *)
Definition plain_Author : value -> Prop := dict_of Author_keys [].
Definition plain_Institution : value -> Prop := dict_of Institution_keys [].
Definition plain_Citation : value -> Prop := dict_of Citation_keys [].
Definition plain_ContainerImage : value -> Prop :=
  dict_of ContainerImage_keys [].

Definition plain_CudaRequirements : value -> Prop :=
  dict_of CudaRequirements_keys
    [("device-memory-min", nullable is_float)].

Definition plain_Resources : value -> Prop :=
  dict_of Resources_keys
    [("networking", nullable is_bool);
     ("ram-min", nullable is_float);
     ("cores-min", nullable is_float);
     ("gpu", nullable is_bool);
     ("cuda-requirements", nullable plain_CudaRequirements);
     ("cpuAVX", nullable is_bool);
     ("cpuAVX2", nullable is_bool)].

Definition plain_Configuration : value -> Prop :=
  dict_of Configuration_keys [("resources", nullable plain_Resources)].

Definition plain_Parameter : value -> Prop :=
  dict_of Parameter_keys
    [("optional", nullable is_bool); ("set-by-server", nullable is_bool)].

Definition plain_OutputParameter : value -> Prop :=
  dict_of OutputParameter_keys
    [("optional", nullable is_bool); ("set-by-server", nullable is_bool)].

Definition plain_document : value -> Prop :=
  dict_of WorkflowSchema_alias_keys
    [("authors", items plain_Author);
     ("institutions", items plain_Institution);
     ("citations", items plain_Citation);
     ("container-image", plain_ContainerImage);
     ("configuration", nullable plain_Configuration);
     ("inputs", items plain_Parameter);
     ("outputs", items plain_OutputParameter)].

(** [keeps P val dmp]: a value of shape [P] that [val] accepts comes back
    from the dump of what it validated to. *)
Definition keeps {A} (P : value -> Prop) (val : validator A)
    (dmp : A -> value) : Prop :=
  forall v x, P v -> val v = Ok x -> completes v (dmp x).

(** A failed validation that explains itself: it has an error line. *)
Definition explains {A} (r : result A) : Prop :=
  forall es, r = Err es -> es ≠ [].

End Validation.

Arguments Ok {F A} a.
Arguments Err {F A} es.
Arguments Required {A}.
Arguments Default {A} a.

(** ** Documents used as witnesses and counterexamples *)

Definition doc := @value whole_floats.

(** The required keys beside [inputs], with one citation; [extra] comes
    first and so takes precedence. *)
Definition manifest_dict (extra : list (string * doc)) (ins : list doc)
  : gmap string doc :=
  list_to_map
    (extra ++
     [("name", VStr "nuclei");
      ("description", VStr "Segments nuclei");
      ("schema-version", VStr "1.0.0");
      ("citations",
       VList [obj [("name", VStr "cellpose"); ("license", VStr "BSD-3")]]);
      ("container-image",
       obj [("image", VStr "nuclei"); ("type", VStr "oci")]);
      ("inputs", VList ins);
      ("command-line", VStr "python run.py")]).

Definition manifest (extra : list (string * doc)) (ins : list doc) : doc :=
  VDict (manifest_dict extra ins).

Definition doc_minimal : doc :=
  minimal_document "nuclei" "Segments nuclei" "1.0.0" [("cellpose", "BSD-3")]
    "nuclei" "oci" [("threshold", "float")] "python run.py".

Definition doc_without_citations : doc :=
  obj [("name", VStr "nuclei");
       ("description", VStr "Segments nuclei");
       ("schema-version", VStr "1.0.0");
       ("container-image",
        obj [("image", VStr "nuclei"); ("type", VStr "oci")]);
       ("inputs", VList []);
       ("command-line", VStr "python run.py")].

Definition param_image_bare : doc :=
  obj [("id", VStr "in"); ("type", VStr "image")].

Definition dict_image_bmp : gmap string doc :=
  list_to_map [("id", VStr "in"); ("type", VStr "image");
               ("sub-type", VStr "grayscale"); ("format", VStr "bmp")].

Definition param_image_bmp : doc := VDict dict_image_bmp.

Definition record_image_bmp : @Parameter_ whole_floats :=
  {| param_id := "in"; param_type := "image"; param_name := None;
     param_description := None; value_key := None;
     command_line_flag := None; default_value := None; optional := None;
     set_by_server := None; format := Some "bmp";
     sub_type := Some "grayscale" |}.

Definition param_array_bare : doc :=
  obj [("id", VStr "stack"); ("type", VStr "array")].

Definition dict_string_label : gmap string doc :=
  list_to_map [("id", VStr "label"); ("type", VStr "string")].

Definition param_threshold : doc :=
  obj [("id", VStr "threshold"); ("type", VStr "float")].

Definition author_inst_x : doc :=
  obj [("name", VStr "A. Author");
       ("affiliations", VList [VStr "inst-x"])].

Definition dict_affiliation_unmatched : gmap string doc :=
  manifest_dict [("authors", VList [author_inst_x]);
                 ("institutions", VList [obj [("id", VStr "inst-y")]])] [].

Definition doc_affiliation_unmatched : doc :=
  VDict dict_affiliation_unmatched.

Definition doc_duplicate_ids : doc :=
  manifest [] [param_threshold; param_threshold].

Definition dict_one_input : gmap string doc :=
  manifest_dict [("outputs", VList [obj [("id", VStr "count");
                                         ("type", VStr "Number")]])]
    [param_threshold].

Definition param_optional (flag : doc) : doc :=
  obj [("id", VStr "threshold"); ("type", VStr "float"); ("optional", flag)].

Definition doc_optional_yes : doc := manifest [] [param_optional (VStr "yes")].
Definition doc_optional_true : doc := manifest [] [param_optional (VBool true)].

Definition dict_bad_enums : gmap string doc :=
  list_to_map
    [("name", VStr "nuclei");
     ("description", VStr "Segments nuclei");
     ("schema-version", VStr "1.0.0");
     ("citations",
      VList [obj [("name", VStr "cellpose"); ("license", VStr "BSD-3")]]);
     ("problem-class", VStr "docker");
     ("container-image",
      obj [("image", VStr "nuclei"); ("type", VStr "docker")]);
     ("inputs", VList [obj [("id", VStr "in"); ("type", VStr "docker")]]);
     ("outputs", VList [obj [("id", VStr "out"); ("type", VStr "docker")]]);
     ("command-line", VStr "python run.py")].

Definition dict_without_version : gmap string doc :=
  list_to_map
    [("name", VStr "nuclei");
     ("description", VStr "Segments nuclei");
     ("citations",
      VList [obj [("name", VStr "cellpose"); ("license", VStr "BSD-3")]]);
     ("container-image",
      obj [("image", VStr "nuclei"); ("type", VStr "oci")]);
     ("inputs", VList []);
     ("command-line", VStr "python run.py")].

(** A document that uses lax conversions ([ram-min] given as an integer,
    [gpu] as the string ["no"]), an internal name ([schema_version]) and
    a key that no field reads ([notes]). *)
Definition doc_rich : doc :=
  obj [("name", VStr "nuclei");
       ("description", VStr "Segments nuclei");
       ("schema_version", VStr "1.0.0");
       ("notes", VStr "draft");
       ("authors", VList [author_inst_x]);
       ("citations",
        VList [obj [("name", VStr "cellpose"); ("license", VStr "BSD-3");
                    ("doi", VStr "10.1038/s41592-020-01018-x")]]);
       ("problem-class", VStr "object-segmentation");
       ("container-image",
        obj [("image", VStr "nuclei"); ("type", VStr "singularity");
             ("platforms", VList [VStr "linux/amd64"])]);
       ("configuration",
        obj [("input_folder", VStr "/data/in");
             ("resources",
              obj [("ram-min", VInt 4096); ("gpu", VStr "no");
                   ("cuda-requirements",
                    obj [("cuda-compute-capability",
                          VList [VStr "7.0"; VStr "8.0"])])])]);
       ("inputs",
        VList [param_optional (VStr "yes");
               obj [("id", VStr "in"); ("type", VStr "image");
                    ("default-value", VInt 3);
                    ("value-key", VStr "[IN]")]]);
       ("outputs",
        VList [obj [("id", VStr "count"); ("type", VStr "Number")]]);
       ("command-line", VStr "python run.py [IN]")].

Definition path_optional : list loc_item :=
  [Key "inputs"; Index 0; Key "optional"].

Definition param_value_key_by_alias : doc :=
  obj [("id", VStr "threshold"); ("type", VStr "float");
       ("value-key", VStr "[THRESHOLD]")].

Definition param_value_key_by_name : doc :=
  obj [("id", VStr "threshold"); ("type", VStr "float");
       ("value_key", VStr "[THRESHOLD]")].

(** A plain document: aliases only, no unknown key, booleans and floats
    given as such. *)
Definition doc_plain : doc :=
  obj [("name", VStr "nuclei");
       ("description", VStr "Segments nuclei");
       ("schema-version", VStr "1.0.0");
       ("authors", VList [author_inst_x]);
       ("citations",
        VList [obj [("name", VStr "cellpose"); ("license", VStr "BSD-3")]]);
       ("problem-class", VStr "object-segmentation");
       ("container-image",
        obj [("image", VStr "nuclei"); ("type", VStr "singularity")]);
       ("configuration",
        obj [("input_folder", VStr "/data/in");
             ("resources",
              obj [("ram-min", @VFloat whole_floats 4096%Z); ("gpu", VBool false);
                   ("cuda-requirements",
                    obj [("cuda-compute-capability",
                          VList [VStr "7.0"; VStr "8.0"])])])]);
       ("inputs",
        VList [param_optional (VBool true);
               obj [("id", VStr "in"); ("type", VStr "image");
                    ("default-value", VInt 3);
                    ("value-key", VStr "[IN]")]]);
       ("outputs",
        VList [obj [("id", VStr "count"); ("type", VStr "Number")]]);
       ("command-line", VStr "python run.py [IN]")].

(** The manifest with a key that no field reads, and the manifest with
    [schema_version] spelled by its internal name. *)
Definition doc_notes : doc := manifest [("notes", VStr "draft")] [].

(** The manifest with [ram-min] given as an integer. *)
Definition doc_ram_integer : doc :=
  manifest
    [("configuration",
      obj [("resources", obj [("ram-min", VInt 4096)])])] [].

Definition path_ram_min : list loc_item :=
  [Key "configuration"; Key "resources"; Key "ram-min"].

Definition doc_version_by_name : doc :=
  VDict (<["schema_version" := VStr "1.0.0"]> dict_without_version).

(** Further dictionaries on which the additional properties are run. *)
Definition dict_cuda_list : gmap string doc :=
  list_to_map
    [("cuda-compute-capability", VList [VStr "7.0"; VStr "8.0"])].

Definition dict_empty : gmap string doc := ∅.

Definition dict_image_by_name : gmap string doc :=
  list_to_map [("sub_type", VStr "grayscale"); ("format", VStr "tif")].

Definition dict_image_tif : gmap string doc :=
  list_to_map [("sub-type", VStr "grayscale"); ("format", VStr "tif")].

Definition dict_output_count : gmap string doc :=
  list_to_map [("id", VStr "count"); ("type", VStr "Number");
               ("default-value", VInt 0)].

Definition dict_authors_null : gmap string doc :=
  manifest_dict [("authors", VNull)] [].

Definition dict_citations_empty : gmap string doc :=
  manifest_dict [("citations", VList [])] [].

Abbreviation dict := (gmap string value).
Infix "<*>" := ap (at level 61, left associativity).

(** * Facts about the reading of a declaration *)

Section Facts.
Context {F : Floats}.
Implicit Types (d : dict) (v : value) (e : error) (c : Config).

Lemma record_of_Some {A} (r : result A) a : record_of r = Some a <-> r = Ok a.
Proof. destruct r; simpl; split; congruence. Qed.

Lemma record_of_ap {A B} (rf : result (A -> B)) (ra : result A) :
  record_of (rf <*> ra) = record_of rf ≫= λ f, f <$> record_of ra.
Proof. destruct rf, ra; reflexivity. Qed.

Lemma ap_Ok {A B} (rf : result (A -> B)) ra b :
  rf <*> ra = Ok b <-> exists f a, rf = Ok f /\ ra = Ok a /\ b = f a.
Proof.
  split.
  - destruct rf as [f|], ra as [a|]; simpl; try discriminate.
    intros [= <-]. by exists f, a.
  - intros (f & a & -> & -> & ->). reflexivity.
Qed.

Lemma fails_with_ap_l {A B} e (rf : result (A -> B)) ra :
  fails_with e rf -> fails_with e (rf <*> ra).
Proof.
  destruct rf as [f|es], ra as [a|es']; simpl; try done.
  intros. apply elem_of_app. by left.
Qed.

Lemma fails_with_ap_r {A B} e (rf : result (A -> B)) ra :
  fails_with e ra -> fails_with e (rf <*> ra).
Proof.
  destruct rf as [f|es], ra as [a|es']; simpl; try done.
  intros. apply elem_of_app. by right.
Qed.

Lemma fails_with_at_loc {A} i e (r : result A) :
  fails_with e r -> fails_with (under i e) (at_loc i r).
Proof.
  destruct r as [a|es]; simpl; [done|].
  intros. by apply list_elem_of_fmap_2.
Qed.

Lemma fails_with_fail {A} t v : fails_with (A := A) (Error t [] v) (fail t v).
Proof. simpl. apply list_elem_of_here. Qed.

Lemma at_loc_Ok {A} i (r : result A) a : at_loc i r = Ok a <-> r = Ok a.
Proof. destruct r; simpl; split; congruence. Qed.

Lemma record_of_at_loc {A} i (r : result A) :
  record_of (at_loc i r) = record_of r.
Proof. by destruct r. Qed.

(** *** Reading a field *)

Lemma field_present {A} c n a (dflt : default_spec A) val d v :
  d !! default n a = Some v ->
  field c n a dflt val d = at_loc (Key (default n a)) (val v).
Proof. intros Hk. unfold field, lookup_field. by rewrite Hk. Qed.

Lemma field_by_name {A} c n a (dflt : default_spec A) val d v :
  by_name c = true -> d !! default n a = None -> d !! n = Some v ->
  field c n a dflt val d = at_loc (Key n) (val v).
Proof. intros Hc Ha Hn. unfold field, lookup_field. by rewrite Ha, Hc, Hn. Qed.

Lemma field_absent_default {A} c n a (x : A) val d :
  d !! default n a = None -> d !! n = None ->
  field c n a (Default x) val d = Ok x.
Proof.
  intros Ha Hn. unfold field, lookup_field. rewrite Ha, Hn.
  by destruct (by_name c).
Qed.

Lemma field_absent_required {A} c n a (val : validator A) d :
  d !! default n a = None -> d !! n = None ->
  field c n a Required val d = Err [Error missing [Key (default n a)] (VDict d)].
Proof.
  intros Ha Hn. unfold field, lookup_field. rewrite Ha, Hn.
  by destruct (by_name c).
Qed.

Lemma field_Ok_inv {A} c n a (dflt : default_spec A) val d x :
  field c n a dflt val d = Ok x ->
  (exists v, val v = Ok x) \/ dflt = Default x.
Proof.
  unfold field. destruct (lookup_field c n a d) as [[k v]|].
  - intros H%at_loc_Ok. left. by exists v.
  - destruct dflt; [done|]. intros [= ->]. by right.
Qed.

(** A key that a field does not read leaves the field as it was. *)
Lemma lookup_field_insert_ne c n a d k v :
  k ≠ default n a -> (by_name c = true -> k ≠ n) ->
  lookup_field c n a (<[k := v]> d) = lookup_field c n a d.
Proof.
  intros Ha Hn. unfold lookup_field.
  rewrite lookup_insert_ne by done.
  destruct (d !! default n a); [done|].
  destruct (by_name c); [|done].
  rewrite lookup_insert_ne by auto. done.
Qed.

Lemma lookup_field_delete_ne c n a d k :
  k ≠ default n a -> (by_name c = true -> k ≠ n) ->
  lookup_field c n a (delete k d) = lookup_field c n a d.
Proof.
  intros Ha Hn. unfold lookup_field.
  rewrite lookup_delete_ne by done.
  destruct (d !! default n a); [done|].
  destruct (by_name c); [|done].
  rewrite lookup_delete_ne by auto. done.
Qed.

Lemma record_of_field_insert_ne {A} c n a (dflt : default_spec A) val d k v :
  k ≠ default n a -> (by_name c = true -> k ≠ n) ->
  record_of (field c n a dflt val (<[k := v]> d))
  = record_of (field c n a dflt val d).
Proof.
  intros Ha Hn. unfold field. rewrite lookup_field_insert_ne by done.
  destruct (lookup_field c n a d) as [[k' v']|]; [done|]. by destruct dflt.
Qed.

Lemma record_of_field_delete_ne {A} c n a (dflt : default_spec A) val d k :
  k ≠ default n a -> (by_name c = true -> k ≠ n) ->
  record_of (field c n a dflt val (delete k d))
  = record_of (field c n a dflt val d).
Proof.
  intros Ha Hn. unfold field. rewrite lookup_field_delete_ne by done.
  destruct (lookup_field c n a d) as [[k' v']|]; [done|]. by destruct dflt.
Qed.

Lemma field_insert_eq {A} c n a (dflt : default_spec A) val d v :
  field c n a dflt val (<[default n a := v]> d)
  = at_loc (Key (default n a)) (val v).
Proof. apply field_present. by rewrite lookup_insert_eq. Qed.

(** *** Lists *)

Lemma list_items_Ok {A} (val : validator A) i l xs :
  list_items val i l = Ok xs <-> Forall2 (λ v x, val v = Ok x) l xs.
Proof.
  revert i xs. induction l as [|v l IH]; intros i xs; cbn [list_items].
  - split; [intros [= <-]; constructor | by inversion 1].
  - rewrite ap_Ok. split.
    + intros (f & tl & (g & x & [= <-] & Hx%at_loc_Ok & ->)%ap_Ok & Htl & ->).
      constructor; [done|]. by apply (IH (S i)).
    + inversion 1 as [|? x ? tl Hx Htl]; subst.
      exists (cons x), tl. split; [|split; [by apply IH|done]].
      apply ap_Ok. exists cons, x. by rewrite Hx.
Qed.

Lemma list_items_fmap {A B} (val : validator A) (f : B -> value) (g : B -> A)
    i (l : list B) :
  Forall (λ x, val (f x) = Ok (g x)) l ->
  list_items val i (f <$> l) = Ok (g <$> l).
Proof.
  intros Hl. apply list_items_Ok. apply Forall2_fmap.
  by apply Forall_Forall2_diag.
Qed.

Lemma list_items_fails {A} (val : validator A) i l j v e :
  l !! j = Some v -> fails_with e (val v) ->
  fails_with (under (Index (i + j)) e) (list_items val i l).
Proof.
  revert i j. induction l as [|w l IH]; intros i [|j]; cbn [list_items];
    try done.
  - intros [= ->] He. apply fails_with_ap_l, fails_with_ap_r.
    rewrite Nat.add_0_r. by apply fails_with_at_loc.
  - intros Hj He. apply fails_with_ap_r.
    replace (i + S j) with (S i + j) by lia. by apply IH.
Qed.

Lemma list_v_Ok {A} n (val : validator A) v xs :
  list_v n val v = Ok xs <->
  exists l, v = VList l /\ Forall2 (λ v x, val v = Ok x) l xs /\ n <= length xs.
Proof.
  unfold list_v. split.
  - destruct v as [| | | | |l|]; try done.
    destruct (list_items val 0 l) as [ys|] eqn:Hl; [|done].
    destruct (Nat.ltb_spec (length ys) n); [done|].
    intros [= <-]. exists l. by rewrite <- list_items_Ok.
  - intros (l & -> & Hl%(list_items_Ok val 0) & Hn). rewrite Hl.
    destruct (Nat.ltb_spec (length xs) n); [lia|done].
Qed.

Lemma list_v_fails {A} n (val : validator A) l j v e :
  l !! j = Some v -> fails_with e (val v) ->
  fails_with (under (Index j) e) (list_v n val (VList l)).
Proof.
  intros Hj He. unfold list_v.
  pose proof (list_items_fails val 0 l j v e Hj He) as H.
  by destruct (list_items val 0 l).
Qed.

Lemma list_v_too_short {A} n (val : validator A) :
  0 < n ->
  list_v n val (VList []) = fail (too_short n 0) (VList []).
Proof. intros Hn. unfold list_v. simpl. by destruct n; [lia|]. Qed.

Lemma list_v_fmap {A B} n (val : validator A) (f : B -> value) (g : B -> A)
    (l : list B) :
  n <= length l -> Forall (λ x, val (f x) = Ok (g x)) l ->
  list_v n val (VList (f <$> l)) = Ok (g <$> l).
Proof.
  intros Hn Hl. apply list_v_Ok. exists (f <$> l). split; [done|].
  split; [|by rewrite length_fmap].
  apply Forall2_fmap. by apply Forall_Forall2_diag.
Qed.

(** *** Literals *)

Lemma literal_v_in L s : s ∈ L -> literal_v L (VStr s) = Ok s.
Proof. intros Hs. unfold literal_v. by rewrite bool_decide_eq_true_2. Qed.

Lemma literal_v_Ok L v s : literal_v L v = Ok s <-> v = VStr s /\ s ∈ L.
Proof.
  split.
  - unfold literal_v. destruct v as [| | | |s'| |]; try done.
    case_bool_decide; [|done]. by intros [= <-].
  - intros [-> Hs]. by apply literal_v_in.
Qed.

Lemma literal_v_outside L v :
  outside L v -> literal_v L v = fail (literal_error L) v.
Proof.
  intros Hv. unfold literal_v. destruct v as [| | | |s| |]; try done.
  case_bool_decide as Hs; [|done]. by destruct (Hv s).
Qed.

Lemma optional_v_not_null {A} (val : validator A) v :
  v ≠ VNull -> optional_v val v = rmap Some (val v).
Proof. by destruct v. Qed.

Lemma fails_with_rmap {A B} (f : A -> B) e (r : result A) :
  fails_with e r -> fails_with e (rmap f r).
Proof. by destruct r. Qed.

Lemma fails_with_missing {A} c n a (val : validator A) d :
  d !! default n a = None -> d !! n = None ->
  fails_with (Error missing [Key (default n a)] (VDict d))
    (field c n a Required val d).
Proof.
  intros Ha Hn. rewrite field_absent_required by done.
  apply list_elem_of_here.
Qed.

End Facts.

(** Reads every field of a model whose dictionary has closed keys. *)
Ltac read_fields :=
  repeat match goal with
  | |- context [@field _ _ ?c ?n ?a ?dflt ?val ?d] =>
      first [ erewrite (field_present c n a dflt val d) by reflexivity
            | rewrite (field_absent_default c n a _ val d) by reflexivity ]
  end;
  cbn [fst snd default from_option id no_alias alias].

(** Finds, in the fields of a model, the one that failed. *)
Ltac blame_field H :=
  repeat first [ apply fails_with_ap_r; exact H | apply fails_with_ap_l ].

(** Finds the required field whose key is absent. *)
Ltac blame_missing Hk Hn :=
  match goal with
  | |- context [@field _ ?A ?c ?n ?a Required ?val ?d] =>
      let H := fresh in
      pose proof (fails_with_missing c n a val d Hk Hn) as H; blame_field H
  end.

(** * The claims *)

Section Defaults.
Context {F : Floats}.

Lemma minimal_Citation_validates c :
  validate_Citation (minimal_Citation c) = Ok (unset_Citation c).
Proof. reflexivity. Qed.

Lemma minimal_Parameter_validates p :
  p.2 ∈ parameter_types ->
  validate_Parameter (minimal_Parameter p) = Ok (unset_Parameter p).
Proof.
  intros Hp. unfold validate_Parameter, minimal_Parameter, model, obj.
  read_fields. by rewrite literal_v_in.
Qed.

(** C1, as amended: a minimal document (the required keys and nothing
    else, with at least one citation) validates, and in the record every
    optional field that the document leaves out is [None] (the three
    defaulted lists are empty): the defaults that the field descriptions
    mention ([name] = [id], ["/inputs"], 1 core, ...) are not filled in. *)
Theorem minimal_document_leaves_fields_unset nm descr ver cits img ty ins cmd :
  cits ≠ [] -> ty ∈ container_types ->
  Forall (λ p, p.2 ∈ parameter_types) ins ->
  validate (minimal_document nm descr ver cits img ty ins cmd)
  = Ok (unset_WorkflowSchema nm descr ver cits img ty ins cmd).
Proof.
  intros Hc Hty Hins.
  unfold validate, validate_WorkflowSchema, minimal_document, model.
  unfold obj at 1. read_fields.
  rewrite (list_v_fmap 1 _ _ unset_Citation); cycle 1.
  { destruct cits; [done|simpl; lia]. }
  { apply Forall_forall. intros. apply minimal_Citation_validates. }
  rewrite (list_v_fmap 0 _ _ unset_Parameter); cycle 1.
  { lia. }
  { eapply Forall_impl; [exact Hins|]. apply minimal_Parameter_validates. }
  unfold validate_ContainerImage, model, obj. read_fields.
  by rewrite literal_v_in.
Qed.

End Defaults.

Lemma minimal_document_leaves_fields_unset_witness :
  validate doc_minimal
  = Ok (unset_WorkflowSchema "nuclei" "Segments nuclei" "1.0.0"
          [("cellpose", "BSD-3")] "nuclei" "oci" [("threshold", "float")]
          "python run.py").
Proof.
  apply minimal_document_leaves_fields_unset.
  - discriminate.
  - by vm_compute; constructor.
  - by repeat constructor.
Defined.

(** C1, as stated, fails: in the record of a minimal document the display
    name, the value key and the flag of the parameter [threshold] are
    [None], not ["threshold"], ["[THRESHOLD]"] and ["--threshold"], and
    there is no configuration that could hold ["/inputs"] or
    ["/outputs"]. *)
Lemma minimal_document_defaults_counterexample :
  exists r, validate doc_minimal = Ok r
    /\ param_name <$> inputs r = [None]
    /\ value_key <$> inputs r = [None]
    /\ command_line_flag <$> inputs r = [None]
    /\ param_description <$> inputs r = [None]
    /\ optional <$> inputs r = [None]
    /\ configuration r = None.
Proof. eexists. split; [reflexivity|]. repeat split. Qed.

(** ** Required fields *)

Section RequiredFields.
Context {F : Floats}.
Implicit Types (d : dict) (v : value).

(** X17: a document without one of the six fields declared with [Field(...)]
    (under its alias and under its name) fails with a [missing] line that
    names the alias. *)
Lemma missing_required_field_reported d n k :
  (n, k) ∈ required_fields -> d !! k = None -> d !! n = None ->
  fails_with (Error missing [Key k] (VDict d)) (validate (VDict d))
  /\ kind_of missing = MissingRequiredField.
Proof.
  intros Hin Hk Hn. split; [|done].
  unfold validate, validate_WorkflowSchema, model.
  unfold required_fields in Hin.
  repeat (apply elem_of_cons in Hin as [[= -> ->]|Hin];
          [blame_missing Hk Hn|]).
  by apply elem_of_nil in Hin.
Qed.

(** X18: a document whose [citations] is the empty list fails with a
    [too_short] line on [citations]. *)
Lemma empty_citations_reported d :
  d !! "citations" = Some (VList []) ->
  fails_with (Error (too_short 1 0) [Key "citations"] (VList []))
    (validate (VDict d))
  /\ kind_of (too_short 1 0) = UniquenessViolation.
Proof.
  intros Hc. split; [|done].
  unfold validate, validate_WorkflowSchema, model.
  assert (fails_with (Error (too_short 1 0) [Key "citations"] (VList []))
            (field WorkflowSchema_Config "citations" no_alias (Default [])
               (list_v 1 validate_Citation) d)) as H.
  { erewrite field_present by exact Hc. apply list_elem_of_here. }
  blame_field H.
Qed.

End RequiredFields.

(** C2, at the input where the code departs from it: a document with
    every key but [citations] validates, and the record's list of
    citations is empty.  [citations] is declared with the default [[]],
    which [min_length=1] does not check. *)
Theorem absent_citations_accepted :
  exists r, validate doc_without_citations = Ok r /\ citations r = [].
Proof. eexists. split; reflexivity. Qed.

(** ** Enumerated fields *)

Section EnumFields.
Context {F : Floats}.
Implicit Types (d : dict) (v : value).

Lemma literal_field_fails c n a (dflt : default_spec string) L d v :
  d !! default n a = Some v -> outside L v ->
  fails_with (Error (literal_error L) [Key (default n a)] v)
    (field c n a dflt (literal_v L) d).
Proof.
  intros Hv Hout. rewrite (field_present _ _ _ _ _ _ v) by done.
  rewrite literal_v_outside by done. apply list_elem_of_here.
Qed.

Lemma optional_literal_field_fails c n a dflt L d v :
  d !! default n a = Some v -> v ≠ VNull -> outside L v ->
  fails_with (Error (literal_error L) [Key (default n a)] v)
    (field c n a dflt (optional_v (literal_v L)) d).
Proof.
  intros Hv Hnull Hout. rewrite (field_present _ _ _ _ _ _ v) by done.
  rewrite optional_v_not_null, literal_v_outside by done.
  apply list_elem_of_here.
Qed.

Lemma model_field_fails {A} c n a (dflt : default_spec A) val d v e :
  d !! default n a = Some v -> fails_with e (val v) ->
  fails_with (under (Key (default n a)) e) (field c n a dflt val d).
Proof.
  intros Hv He. rewrite (field_present _ _ _ _ _ _ v) by done.
  by apply fails_with_at_loc.
Qed.

Lemma ContainerImage_type_fails ci v :
  ci !! "type" = Some v -> outside container_types v ->
  fails_with (Error (literal_error container_types) [Key "type"] v)
    (validate_ContainerImage (VDict ci)).
Proof.
  intros Hv Hout. unfold validate_ContainerImage, model.
  pose proof (literal_field_fails no_config "type" no_alias Required
                container_types ci v Hv Hout) as H.
  blame_field H.
Qed.

Lemma Parameter_type_fails p v :
  p !! "type" = Some v -> outside parameter_types v ->
  fails_with (Error (literal_error parameter_types) [Key "type"] v)
    (validate_Parameter (VDict p)).
Proof.
  intros Hv Hout. unfold validate_Parameter, model.
  pose proof (literal_field_fails no_config "type" no_alias Required
                parameter_types p v Hv Hout) as H.
  blame_field H.
Qed.

Lemma OutputParameter_type_fails p v :
  p !! "type" = Some v -> outside output_types v ->
  fails_with (Error (literal_error output_types) [Key "type"] v)
    (validate_OutputParameter (VDict p)).
Proof.
  intros Hv Hout. unfold validate_OutputParameter, model.
  pose proof (literal_field_fails no_config "type" no_alias Required
                output_types p v Hv Hout) as H.
  blame_field H.
Qed.

(** C9: a value outside the literal set of [container-image.type], of the
    [type] of an input or of an output, or of [problem-class] (when it is
    present and not null) makes validation fail with an error line that
    names the field by its path, carries the offending value and carries
    the allowed set; the line is of the kind [InvalidEnumValue]. *)
Theorem enum_fields_reject_other_values d v :
  (forall ci,
     d !! "container-image" = Some (VDict ci) -> ci !! "type" = Some v ->
     outside container_types v ->
     fails_with (Error (literal_error container_types)
                   [Key "container-image"; Key "type"] v)
       (validate (VDict d)))
  /\ (forall l i p,
     d !! "inputs" = Some (VList l) -> l !! i = Some (VDict p) ->
     p !! "type" = Some v -> outside parameter_types v ->
     fails_with (Error (literal_error parameter_types)
                   [Key "inputs"; Index i; Key "type"] v)
       (validate (VDict d)))
  /\ (forall l i p,
     d !! "outputs" = Some (VList l) -> l !! i = Some (VDict p) ->
     p !! "type" = Some v -> outside output_types v ->
     fails_with (Error (literal_error output_types)
                   [Key "outputs"; Index i; Key "type"] v)
       (validate (VDict d)))
  /\ (d !! "problem-class" = Some v -> v ≠ VNull ->
     outside problem_classes v ->
     fails_with (Error (literal_error problem_classes)
                   [Key "problem-class"] v)
       (validate (VDict d)))
  /\ (forall L, kind_of (literal_error L) = InvalidEnumValue).
Proof.
  unfold validate, validate_WorkflowSchema, model.
  repeat split.
  - intros ci Hci Hv Hout.
    pose proof (model_field_fails WorkflowSchema_Config "container_image"
                  (alias "container-image") Required _ d _ _ Hci
                  (ContainerImage_type_fails ci v Hv Hout)) as H.
    blame_field H.
  - intros l i p Hl Hi Hv Hout.
    pose proof (model_field_fails WorkflowSchema_Config "inputs" no_alias
                  Required _ d _ _ Hl
                  (list_v_fails 0 _ l i _ _ Hi
                     (Parameter_type_fails p v Hv Hout))) as H.
    blame_field H.
  - intros l i p Hl Hi Hv Hout.
    pose proof (model_field_fails WorkflowSchema_Config "outputs" no_alias
                  (Default []) _ d _ _ Hl
                  (list_v_fails 0 _ l i _ _ Hi
                     (OutputParameter_type_fails p v Hv Hout))) as H.
    blame_field H.
  - intros Hv Hnull Hout.
    pose proof (optional_literal_field_fails WorkflowSchema_Config
                  "problem_class" (alias "problem-class") (Default None)
                  problem_classes d v Hv Hnull Hout) as H.
    blame_field H.
Qed.

End EnumFields.

Lemma docker_outside L :
  bool_decide ("docker" ∈ L) = false -> outside L (VStr "docker" : doc).
Proof. intros H s [= <-]. by apply bool_decide_eq_false in H. Qed.

Lemma enum_fields_reject_other_values_witness :
  fails_with (Error (literal_error container_types)
                [Key "container-image"; Key "type"] (VStr "docker"))
    (validate (VDict dict_bad_enums))
  /\ fails_with (Error (literal_error parameter_types)
                   [Key "inputs"; Index 0; Key "type"] (VStr "docker"))
       (validate (VDict dict_bad_enums))
  /\ fails_with (Error (literal_error output_types)
                   [Key "outputs"; Index 0; Key "type"] (VStr "docker"))
       (validate (VDict dict_bad_enums))
  /\ fails_with (Error (literal_error problem_classes)
                   [Key "problem-class"] (VStr "docker"))
       (validate (VDict dict_bad_enums)).
Proof.
  pose proof (enum_fields_reject_other_values dict_bad_enums (VStr "docker"))
    as (Hc & Hi & Ho & Hp & _).
  refine (conj _ (conj _ (conj _ _))).
  - eapply Hc; [reflexivity|reflexivity|by apply docker_outside].
  - eapply Hi; [reflexivity|reflexivity|reflexivity|by apply docker_outside].
  - eapply Ho; [reflexivity|reflexivity|reflexivity|by apply docker_outside].
  - apply Hp; [reflexivity|discriminate|by apply docker_outside].
Defined.

(** ** Keys that a model does not constrain *)

(** Brings the fields of a model over a changed dictionary back to the
    fields over the dictionary it was changed from, the changed key
    apart. *)
Ltac other_key := cbn; intros; first [discriminate | congruence].

Ltac unchanged_fields :=
  repeat match goal with
  | |- context [record_of (@field _ ?A ?c ?n ?a ?dflt ?val (<[?k := ?v]> ?d))] =>
      rewrite (record_of_field_insert_ne c n a dflt val d k v)
        by other_key
  | |- context [record_of (@field _ ?A ?c ?n ?a ?dflt ?val (delete ?k ?d))] =>
      rewrite (record_of_field_delete_ne c n a dflt val d k)
        by other_key
  end.

(** The outcome of every field of a model that validated: from
    [H : Ok Build <*> f1 <*> ... <*> fn = Ok r], one equation per field. *)
Ltac fields_of H :=
  repeat (apply ap_Ok in H as (? & ? & H & ? & ->));
  injection H as <-.

(** Uses these equations in the goal. *)
Ltac use_fields :=
  repeat match goal with
  | H : @field _ _ _ _ _ _ _ _ = Ok _ |- _ => rewrite H; clear H
  end;
  cbn [record_of mbind option_bind fmap option_fmap option_map].

Section FreeKeys.
Context {F : Floats}.
Implicit Types (d : dict) (v : value).

Lemma record_of_field_insert_eq {A} c n a (dflt : default_spec A) val d v :
  record_of (field c n a dflt val (<[default n a := v]> d)) = record_of (val v).
Proof. by rewrite field_insert_eq, record_of_at_loc. Qed.

Lemma record_of_field_delete_eq {A} (n : string) (x : A) val d :
  record_of (field no_config n no_alias (Default x) val (delete n d)) = Some x.
Proof.
  rewrite field_absent_default; [done| |]; apply lookup_delete_eq.
Qed.

Lemma record_of_field_delete_alias {A} n a (x : A) val d :
  record_of (field no_config n (alias a) (Default x) val (delete a d)) = Some x.
Proof.
  unfold field, lookup_field. cbn. by rewrite lookup_delete_eq.
Qed.

(** [format] of a [Parameter]: any string is kept, and its absence is
    accepted, whatever the other fields hold. *)
Lemma Parameter_format_free d p :
  validate_Parameter (VDict d) = Ok p ->
  (forall f, validate_Parameter (VDict (<["format" := VStr f]> d))
     = Ok (with_format (Some f) p))
  /\ validate_Parameter (VDict (delete "format" d)) = Ok (with_format None p).
Proof.
  unfold validate_Parameter, model. intros H. fields_of H.
  split; [intros f|]; apply record_of_Some; rewrite !record_of_ap;
    unchanged_fields.
  - rewrite (record_of_field_insert_eq no_config "format" no_alias).
    by use_fields.
  - rewrite record_of_field_delete_eq. by use_fields.
Qed.

(** [sub-type] of a [Parameter]: likewise. *)
Lemma Parameter_sub_type_free d p :
  validate_Parameter (VDict d) = Ok p ->
  (forall s, validate_Parameter (VDict (<["sub-type" := VStr s]> d))
     = Ok (with_sub_type (Some s) p))
  /\ validate_Parameter (VDict (delete "sub-type" d))
     = Ok (with_sub_type None p).
Proof.
  unfold validate_Parameter, model. intros H. fields_of H.
  split; [intros s|]; apply record_of_Some; rewrite !record_of_ap;
    unchanged_fields.
  - rewrite (record_of_field_insert_eq no_config "sub_type" (alias "sub-type")).
    by use_fields.
  - rewrite record_of_field_delete_alias. by use_fields.
Qed.

(** A list field of the root model can be replaced by any list that
    validates on its own; nothing else in the record changes. *)
Lemma institutions_free d r v insts :
  validate (VDict d) = Ok r ->
  list_v 0 validate_Institution v = Ok insts ->
  validate (VDict (<["institutions" := v]> d))
  = Ok (with_institutions insts r).
Proof.
  unfold validate, validate_WorkflowSchema, model. intros H Hv. fields_of H.
  apply record_of_Some; rewrite !record_of_ap; unchanged_fields.
  rewrite (record_of_field_insert_eq WorkflowSchema_Config "institutions"
             no_alias), Hv.
  by use_fields.
Qed.

Lemma inputs_free d r v ps :
  validate (VDict d) = Ok r ->
  list_v 0 validate_Parameter v = Ok ps ->
  validate (VDict (<["inputs" := v]> d)) = Ok (with_inputs ps r).
Proof.
  unfold validate, validate_WorkflowSchema, model. intros H Hv. fields_of H.
  apply record_of_Some; rewrite !record_of_ap; unchanged_fields.
  rewrite (record_of_field_insert_eq WorkflowSchema_Config "inputs" no_alias),
    Hv.
  by use_fields.
Qed.

Lemma outputs_free d r v ps :
  validate (VDict d) = Ok r ->
  list_v 0 validate_OutputParameter v = Ok ps ->
  validate (VDict (<["outputs" := v]> d)) = Ok (with_outputs ps r).
Proof.
  unfold validate, validate_WorkflowSchema, model. intros H Hv. fields_of H.
  apply record_of_Some; rewrite !record_of_ap; unchanged_fields.
  rewrite (record_of_field_insert_eq WorkflowSchema_Config "outputs" no_alias),
    Hv.
  by use_fields.
Qed.

Lemma validate_inputs d r v :
  validate (VDict d) = Ok r -> d !! "inputs" = Some v ->
  list_v 0 validate_Parameter v = Ok (inputs r).
Proof.
  unfold validate, validate_WorkflowSchema, model. intros H Hv. fields_of H.
  match goal with
  | H : field _ "inputs" _ _ _ _ = Ok _ |- _ =>
      rewrite (field_present _ _ _ _ _ _ v) in H by done;
      by apply at_loc_Ok in H
  end.
Qed.

Lemma validate_outputs d r v :
  validate (VDict d) = Ok r -> d !! "outputs" = Some v ->
  list_v 0 validate_OutputParameter v = Ok (outputs r).
Proof.
  unfold validate, validate_WorkflowSchema, model. intros H Hv. fields_of H.
  match goal with
  | H : field _ "outputs" _ _ _ _ = Ok _ |- _ =>
      rewrite (field_present _ _ _ _ _ _ v) in H by done;
      by apply at_loc_Ok in H
  end.
Qed.

Lemma list_v_twice {A} (val : validator A) l xs :
  list_v 0 val (VList l) = Ok xs ->
  list_v 0 val (VList (l ++ l)) = Ok (xs ++ xs)%list.
Proof.
  intros (l' & [= <-] & Hl & _)%list_v_Ok. apply list_v_Ok.
  exists (l ++ l)%list. split; [done|]. split; [by apply Forall2_app|lia].
Qed.

(** C3, as amended: a [Parameter] of type [image] does not need a
    [sub-type].  One that validates still validates, to the same record
    but for [sub_type], when the key is removed ([sub_type] is then
    [None]) and when it is set to any string (kept as given). *)
Theorem image_sub_type_not_required d p :
  validate_Parameter (VDict d) = Ok p -> param_type p = "image" ->
  validate_Parameter (VDict (delete "sub-type" d)) = Ok (with_sub_type None p)
  /\ (forall s, validate_Parameter (VDict (<["sub-type" := VStr s]> d))
        = Ok (with_sub_type (Some s) p)).
Proof.
  intros H _. destruct (Parameter_sub_type_free d p H). by split.
Qed.

(** C4, as amended: for a [Parameter] of type [file], [image] or [array],
    [format] is neither required nor restricted.  One that validates
    still validates, to the same record but for [format], when the key is
    set to any string (kept as given) and when it is removed ([format] is
    then [None]). *)
Theorem format_not_constrained_by_type d p :
  validate_Parameter (VDict d) = Ok p ->
  param_type p ∈ ["file"; "image"; "array"] ->
  (forall f, validate_Parameter (VDict (<["format" := VStr f]> d))
     = Ok (with_format (Some f) p))
  /\ validate_Parameter (VDict (delete "format" d)) = Ok (with_format None p).
Proof. intros H _. by apply Parameter_format_free. Qed.

(** C10: a [Parameter] whose type is not [file], [image] or [array]
    validates with any strings as [format] and [sub-type], and the record
    holds them as given. *)
Theorem other_types_keep_format_and_sub_type d p f s :
  validate_Parameter (VDict d) = Ok p ->
  param_type p ∉ ["file"; "image"; "array"] ->
  validate_Parameter
    (VDict (<["format" := VStr f]> (<["sub-type" := VStr s]> d)))
  = Ok (with_format (Some f) (with_sub_type (Some s) p)).
Proof.
  intros H _.
  destruct (Parameter_sub_type_free d p H) as [Hs _].
  destruct (Parameter_format_free _ _ (Hs s)) as [Hf _]. apply Hf.
Qed.

(** C5, as amended: the affiliations of the authors are not compared
    with the institutions.  A document that validates still validates, to
    the same authors, when [institutions] is replaced by any list of
    institutions that validates on its own. *)
Theorem affiliations_not_checked d r v insts :
  validate (VDict d) = Ok r ->
  list_v 0 validate_Institution v = Ok insts ->
  validate (VDict (<["institutions" := v]> d))
  = Ok (with_institutions insts r).
Proof. apply institutions_free. Qed.

(** C6, as amended: the ids of [inputs] and of [outputs] are not
    compared with one another.  A document that validates still validates
    when every input, or every output, is listed twice, and the record
    then holds every parameter twice. *)
Theorem duplicate_ids_accepted d r :
  validate (VDict d) = Ok r ->
  (forall l, d !! "inputs" = Some (VList l) ->
     validate (VDict (<["inputs" := VList (l ++ l)]> d))
     = Ok (with_inputs (inputs r ++ inputs r) r))
  /\ (forall l, d !! "outputs" = Some (VList l) ->
     validate (VDict (<["outputs" := VList (l ++ l)]> d))
     = Ok (with_outputs (outputs r ++ outputs r) r)).
Proof.
  intros H. split; intros l Hl.
  - apply inputs_free; [done|]. apply list_v_twice. by eapply validate_inputs.
  - apply outputs_free; [done|]. apply list_v_twice. by eapply validate_outputs.
Qed.

End FreeKeys.

(** ** Witnesses and counterexamples on concrete documents *)

Lemma image_sub_type_not_required_witness :
  validate_Parameter (VDict (delete "sub-type" dict_image_bmp))
  = Ok (with_sub_type None record_image_bmp)
  /\ (forall s,
        validate_Parameter (VDict (<["sub-type" := VStr s]> dict_image_bmp))
        = Ok (with_sub_type (Some s) record_image_bmp)).
Proof. apply image_sub_type_not_required; reflexivity. Defined.

(** C3, as stated, fails: a document whose only input is of type [image]
    and has no [sub-type] validates; no error line is returned and the
    record's [sub_type] is [None]. *)
Lemma image_sub_type_counterexample :
  exists r, validate (manifest [] [param_image_bare]) = Ok r
    /\ param_type <$> inputs r = ["image"]
    /\ sub_type <$> inputs r = [None].
Proof. eexists. split; [reflexivity|]. by split. Qed.

Lemma format_not_constrained_by_type_witness :
  (forall f,
     validate_Parameter (VDict (<["format" := VStr f]> dict_image_bmp))
     = Ok (with_format (Some f) record_image_bmp))
  /\ validate_Parameter (VDict (delete "format" dict_image_bmp))
     = Ok (with_format None record_image_bmp).
Proof.
  apply format_not_constrained_by_type; [reflexivity|].
  apply (bool_decide_unpack _). reflexivity.
Defined.

(** C4, as stated, fails: a document with an input of type [image] and
    format ["bmp"], and an input of type [array] without a format,
    validates; the record holds ["bmp"] and [None]. *)
Lemma image_format_counterexample :
  exists r, validate (manifest [] [param_image_bmp; param_array_bare]) = Ok r
    /\ param_type <$> inputs r = ["image"; "array"]
    /\ format <$> inputs r = [Some "bmp"; None].
Proof. eexists. split; [reflexivity|]. by split. Qed.

Lemma other_types_keep_format_and_sub_type_witness :
  validate_Parameter
    (VDict (<["format" := VStr "bmp"]>
              (<["sub-type" := VStr "sepia"]> dict_string_label)))
  = Ok (with_format (Some "bmp")
          (with_sub_type (Some "sepia") (unset_Parameter ("label", "string")))).
Proof.
  apply other_types_keep_format_and_sub_type; [reflexivity|].
  apply (bool_decide_unpack _). reflexivity.
Defined.

Lemma affiliations_not_checked_witness :
  exists r, validate doc_affiliation_unmatched = Ok r
    /\ validate
         (VDict (<["institutions" := VList [obj [("id", VStr "inst-x")]]]>
                   dict_affiliation_unmatched))
       = Ok (with_institutions
               [{| institution_id := "inst-x"; institution_name := None |}] r).
Proof.
  eexists. split; [reflexivity|].
  apply affiliations_not_checked; reflexivity.
Defined.

(** C5, as stated, fails: the document whose author is affiliated to
    ["inst-x"] while the only institution is ["inst-y"] validates. *)
Lemma affiliation_counterexample :
  exists r, validate doc_affiliation_unmatched = Ok r
    /\ author_affiliations <$> authors r = [Some ["inst-x"]]
    /\ institution_id <$> institutions r = ["inst-y"].
Proof. eexists. split; [reflexivity|]. by split. Qed.

Lemma duplicate_ids_accepted_witness :
  exists r, validate (VDict dict_one_input) = Ok r
    /\ validate
         (VDict (<["inputs" := VList [param_threshold; param_threshold]]>
                   dict_one_input))
       = Ok (with_inputs (inputs r ++ inputs r) r).
Proof.
  eexists. split; [reflexivity|].
  eapply (proj1 (duplicate_ids_accepted dict_one_input _ eq_refl)
            [param_threshold]).
  reflexivity.
Defined.

(** C6, as stated, fails: the document with two inputs of id
    ["threshold"] validates, and the record holds both. *)
Lemma duplicate_ids_counterexample :
  exists r, validate doc_duplicate_ids = Ok r
    /\ param_id <$> inputs r = ["threshold"; "threshold"].
Proof. eexists. split; [reflexivity|]. done. Qed.

(** ** Aliases *)

Section Aliases.
Context {F : Floats}.
Implicit Types (d : dict) (v : value).

Lemma record_of_field_insert_name {A} c n a (dflt : default_spec A) val d v :
  by_name c = true -> d !! a = None -> n ≠ a ->
  record_of (field c n (alias a) dflt val (<[n := v]> d)) = record_of (val v).
Proof.
  intros Hc Ha Hna.
  rewrite (field_by_name c n (alias a) dflt val _ v); try done.
  - apply record_of_at_loc.
  - cbn. by rewrite lookup_insert_ne.
  - apply lookup_insert_eq.
Qed.

Lemma record_of_field_insert_alias {A} c n a (dflt : default_spec A) val d v :
  record_of (field c n (alias a) dflt val (<[a := v]> d)) = record_of (val v).
Proof. apply (record_of_field_insert_eq c n (alias a)). Qed.

(** In the root model a key under the internal name is read as the key
    under the alias would be. *)
Lemma WorkflowSchema_reads_names n a d v :
  (n, a) ∈ WorkflowSchema_aliases -> d !! a = None ->
  record_of (validate (VDict (<[n := v]> d)))
  = record_of (validate (VDict (<[a := v]> d))).
Proof.
  intros Hin Ha. unfold validate, validate_WorkflowSchema, model.
  rewrite !record_of_ap. unfold WorkflowSchema_aliases in Hin.
  repeat (apply elem_of_cons in Hin as [[= -> ->]|Hin];
    [unchanged_fields;
     rewrite record_of_field_insert_name by done;
     by rewrite record_of_field_insert_alias|]).
  by apply elem_of_nil in Hin.
Qed.

(** In the nested models a key under the internal name is not read. *)
Lemma Parameter_ignores_names n a d v :
  (n, a) ∈ Parameter_aliases ->
  record_of (validate_Parameter (VDict (<[n := v]> d)))
  = record_of (validate_Parameter (VDict d)).
Proof.
  intros Hin. unfold validate_Parameter, model.
  rewrite !record_of_ap. unfold Parameter_aliases in Hin.
  repeat (apply elem_of_cons in Hin as [[= -> ->]|Hin];
          [by unchanged_fields|]).
  by apply elem_of_nil in Hin.
Qed.

Lemma OutputParameter_ignores_names n a d v :
  (n, a) ∈ OutputParameter_aliases ->
  record_of (validate_OutputParameter (VDict (<[n := v]> d)))
  = record_of (validate_OutputParameter (VDict d)).
Proof.
  intros Hin. unfold validate_OutputParameter, model.
  rewrite !record_of_ap. unfold OutputParameter_aliases in Hin.
  repeat (apply elem_of_cons in Hin as [[= -> ->]|Hin];
          [by unchanged_fields|]).
  by apply elem_of_nil in Hin.
Qed.

Lemma Resources_ignores_names n a d v :
  (n, a) ∈ Resources_aliases ->
  record_of (validate_Resources (VDict (<[n := v]> d)))
  = record_of (validate_Resources (VDict d)).
Proof.
  intros Hin. unfold validate_Resources, model.
  rewrite !record_of_ap. unfold Resources_aliases in Hin.
  repeat (apply elem_of_cons in Hin as [[= -> ->]|Hin];
          [by unchanged_fields|]).
  by apply elem_of_nil in Hin.
Qed.

Lemma CudaRequirements_ignores_names n a d v :
  (n, a) ∈ CudaRequirements_aliases ->
  record_of (validate_CudaRequirements (VDict (<[n := v]> d)))
  = record_of (validate_CudaRequirements (VDict d)).
Proof.
  intros Hin. unfold validate_CudaRequirements, model.
  rewrite !record_of_ap. unfold CudaRequirements_aliases in Hin.
  repeat (apply elem_of_cons in Hin as [[= -> ->]|Hin];
          [by unchanged_fields|]).
  by apply elem_of_nil in Hin.
Qed.

(** C8, as amended: the four aliased fields of the root model
    ([schema-version], [problem-class], [container-image],
    [command-line]) may be spelled by alias or by internal name, with the
    same record from either spelling.  The aliased fields of the nested
    models ([value-key], [sub-type], [ram-min], ...) are read by alias
    only: a key under the internal name changes nothing in the record. *)
Theorem names_read_in_root_model_only n a d v :
  ((n, a) ∈ WorkflowSchema_aliases -> d !! a = None ->
     record_of (validate (VDict (<[n := v]> d)))
     = record_of (validate (VDict (<[a := v]> d))))
  /\ ((n, a) ∈ Parameter_aliases ->
     record_of (validate_Parameter (VDict (<[n := v]> d)))
     = record_of (validate_Parameter (VDict d)))
  /\ ((n, a) ∈ OutputParameter_aliases ->
     record_of (validate_OutputParameter (VDict (<[n := v]> d)))
     = record_of (validate_OutputParameter (VDict d)))
  /\ ((n, a) ∈ Resources_aliases ->
     record_of (validate_Resources (VDict (<[n := v]> d)))
     = record_of (validate_Resources (VDict d)))
  /\ ((n, a) ∈ CudaRequirements_aliases ->
     record_of (validate_CudaRequirements (VDict (<[n := v]> d)))
     = record_of (validate_CudaRequirements (VDict d))).
Proof.
  refine (conj _ (conj _ (conj _ (conj _ _)))).
  - apply WorkflowSchema_reads_names.
  - apply Parameter_ignores_names.
  - apply OutputParameter_ignores_names.
  - apply Resources_ignores_names.
  - apply CudaRequirements_ignores_names.
Qed.

End Aliases.

Lemma names_read_in_root_model_only_witness :
  record_of
    (validate (VDict (<["schema_version" := VStr "1.0.0"]> dict_without_version)))
  = record_of
      (validate (VDict (<["schema-version" := VStr "1.0.0"]> dict_without_version)))
  /\ record_of
       (validate_Parameter
          (VDict (<["value_key" := VStr "[LABEL]"]> dict_string_label)))
     = record_of (validate_Parameter (VDict dict_string_label)).
Proof.
  split.
  - apply (proj1 (names_read_in_root_model_only
                    "schema_version" "schema-version" dict_without_version
                    (VStr "1.0.0"))).
    + apply list_elem_of_here.
    + reflexivity.
  - apply (proj1 (proj2 (names_read_in_root_model_only
                           "value_key" "value-key" dict_string_label
                           (VStr "[LABEL]")))).
    apply list_elem_of_here.
Defined.

(** C8, as stated, fails for [value-key]: the input that spells it
    [value-key] has the value key in its record; the same input with the
    key spelled [value_key] validates too, but its record has none. *)
Lemma value_key_spelling_counterexample :
  exists r1 r2,
    validate (manifest [] [param_value_key_by_alias]) = Ok r1
    /\ validate (manifest [] [param_value_key_by_name]) = Ok r2
    /\ value_key <$> inputs r1 = [Some "[THRESHOLD]"]
    /\ value_key <$> inputs r2 = [None].
Proof. do 2 eexists. split; [reflexivity|]. split; [reflexivity|]. by split. Qed.

(** ** Round trip *)

Create HintDb redump discriminated.

Section RoundTrip.
Context {F : Floats}.
Implicit Types (d : dict) (v : value).

Lemma extends_at_path p : forall doc out v,
  extends doc out -> at_path p doc = Some v ->
  exists v', at_path p out = Some v' /\ extends v v'.
Proof.
  induction p as [|[k|i] p IH]; intros doc out v Hext Hv.
  - injection Hv as <-. by exists out.
  - destruct doc as [| | | | | |d]; try done. simpl in Hv.
    destruct (d !! k) as [w|] eqn:Hk; [|done].
    inversion Hext as [|?|? d2 Hd]; subst.
    + exists v. split; [|constructor]. simpl. by rewrite Hk.
    + destruct (Hd k w Hk) as (w2 & Hk2 & Hw).
      destruct (IH w w2 v Hw Hv) as (v' & Hv' & Hvv').
      exists v'. split; [|done]. simpl. by rewrite Hk2.
  - destruct doc as [| | | | |l|]; try done. simpl in Hv.
    destruct (l !! i) as [w|] eqn:Hi; [|done].
    inversion Hext as [|? l2 Hl|]; subst.
    + exists v. split; [|constructor]. simpl. by rewrite Hi.
    + destruct (Forall2_lookup_l _ _ _ _ _ Hl Hi) as (w2 & Hi2 & Hw).
      destruct (IH w w2 v Hw Hv) as (v' & Hv' & Hvv').
      exists v'. split; [|done]. simpl. by rewrite Hi2.
Qed.

Lemma extends_str s out : extends (VStr s) out -> out = VStr s.
Proof. by inversion 1. Qed.

Lemma extends_bool b out : extends (VBool b) out -> out = VBool b.
Proof. by inversion 1. Qed.

Lemma extends_int z out : extends (VInt z) out -> out = VInt z.
Proof. by inversion 1. Qed.

(** *** What a validator accepted, it accepts again once dumped *)

Lemma redumps_str : redumps str_v VStr.
Proof. by intros v a _. Qed.

Lemma redumps_bool : redumps bool_v VBool.
Proof. by intros v a _. Qed.

Lemma redumps_float : redumps float_v VFloat.
Proof. by intros v a _. Qed.

Lemma redumps_literal L : redumps (literal_v L) VStr.
Proof. intros v a [_ Ha]%literal_v_Ok. by apply literal_v_in. Qed.

Lemma redumps_scalar : redumps scalar_v dump_scalar.
Proof. intros v a _. by destruct a. Qed.

Lemma rmap_Ok {A B} (f : A -> B) (r : result A) b :
  rmap f r = Ok b <-> exists a, r = Ok a /\ b = f a.
Proof.
  destruct r as [a|]; simpl; split; try done.
  - intros [= <-]. by exists a.
  - by intros (a' & [= <-] & ->).
  - by intros (? & ? & _).
Qed.

Lemma redumps_optional {A} (val : validator A) dmp :
  redumps val dmp -> (forall a, dmp a ≠ VNull) ->
  redumps (optional_v val) (dump_opt dmp).
Proof.
  intros Hval Hnull v [a|] H; [|done]. simpl.
  rewrite optional_v_not_null by done.
  assert (exists v', val v' = Ok a) as [v' Hv'].
  { destruct v; try (apply rmap_Ok in H as (a' & H & [= <-]); by eexists).
    done. }
  by rewrite (Hval _ _ Hv').
Qed.

Lemma redumps_list {A} n (val : validator A) dmp :
  redumps val dmp -> redumps (list_v n val) (dump_list dmp).
Proof.
  intros Hval v xs (l & -> & Hl & Hn)%list_v_Ok. apply list_v_Ok.
  exists (dmp <$> xs). split; [done|]. split; [|done].
  apply Forall2_fmap_l. clear Hn.
  induction Hl as [|w x l xs Hx _ IH]; constructor; [|done].
  by apply (Hval w).
Qed.

Lemma list_v_strs l : list_v 0 str_v (VList (VStr <$> l)) = Ok l.
Proof.
  rewrite (list_v_fmap 0 str_v VStr id); [by rewrite list_fmap_id|lia|].
  by apply Forall_forall.
Qed.

Lemma redumps_str_or_list : redumps str_or_list_v dump_str_or_list.
Proof.
  intros v [s|l] _; [done|]. cbn [dump_str_or_list]. unfold dump_list.
  unfold str_or_list_v. by rewrite list_v_strs.
Qed.

Lemma field_redump {A} c n a (dflt : default_spec A) val dmp d x :
  redumps val dmp -> (dflt = Default x -> val (dmp x) = Ok x) ->
  field c n a dflt val d = Ok x -> val (dmp x) = Ok x.
Proof.
  intros Hval Hd [[v Hv]|Hx]%field_Ok_inv; [by apply (Hval v)|by apply Hd].
Qed.

Lemma model_Ok_inv {A} (body : dict -> result A) v r :
  model body v = Ok r -> exists d, v = VDict d /\ body d = Ok r.
Proof. destruct v; try done. intros H. by eexists. Qed.

End RoundTrip.

#[export] Hint Resolve redumps_str redumps_bool redumps_float redumps_literal
  redumps_scalar redumps_str_or_list redumps_optional redumps_list : redump.

#[export] Hint Extern 1 (forall _, _ ≠ VNull) =>
  (let a := fresh in intros a; try destruct a; discriminate) : redump.

(** From [H : field ... d = Ok x], the fact that the dump of [x]
    validates to [x]. *)
Ltac redump_field H :=
  eapply field_redump in H;
  [ | solve [eauto 6 with redump]
    | solve [intros [= <-]; reflexivity | intros [=] ] ].

Ltac redump_fields :=
  repeat match goal with
  | H : @field _ _ _ _ _ _ _ _ = Ok _ |- _ => redump_field H
  end.

Ltac projections :=
  cbn [author_name author_email author_affiliations
       institution_id institution_name
       citation_name citation_doi citation_license citation_description
       image image_type platforms
       device_memory_min cuda_compute_capability
       networking ram_min cores_min gpu cuda_requirements cpuAVX cpuAVX2
       input_folder output_folder resources
       param_id param_type param_name param_description value_key
       command_line_flag default_value optional set_by_server format sub_type
       out_id out_type out_name out_description out_value_key
       out_command_line_flag out_default_value out_optional out_set_by_server
       name description schema_version authors institutions citations
       problem_class container_image configuration inputs outputs
       command_line] in *.

(** A model whose fields redump: the fields of the dumped record are read
    back one by one. *)
Ltac redump_body :=
  unfold model, obj, key; projections; read_fields;
  repeat match goal with
  | H : _ = Ok _ |- _ => rewrite H; clear H
  end;
  reflexivity.

Ltac redump_model :=
  let v := fresh "v" in let r := fresh "r" in let H := fresh "H" in
  let d := fresh "d" in
  intros v r H; apply model_Ok_inv in H as (d & -> & H);
  fields_of H; redump_fields.

Lemma redumps_Author {F : Floats} : redumps validate_Author (dump_Author true).
Proof. redump_model. unfold validate_Author, dump_Author. redump_body. Qed.
#[export] Hint Resolve redumps_Author : redump.

Lemma redumps_Institution {F : Floats} :
  redumps validate_Institution (dump_Institution true).
Proof.
  redump_model. unfold validate_Institution, dump_Institution. redump_body.
Qed.
#[export] Hint Resolve redumps_Institution : redump.

Lemma redumps_Citation {F : Floats} : redumps validate_Citation (dump_Citation true).
Proof. redump_model. unfold validate_Citation, dump_Citation. redump_body. Qed.
#[export] Hint Resolve redumps_Citation : redump.

Lemma redumps_ContainerImage {F : Floats} :
  redumps validate_ContainerImage (dump_ContainerImage true).
Proof.
  redump_model. unfold validate_ContainerImage, dump_ContainerImage.
  redump_body.
Qed.
#[export] Hint Resolve redumps_ContainerImage : redump.

Lemma redumps_CudaRequirements {F : Floats} :
  redumps validate_CudaRequirements (dump_CudaRequirements true).
Proof.
  redump_model. unfold validate_CudaRequirements, dump_CudaRequirements.
  redump_body.
Qed.
#[export] Hint Resolve redumps_CudaRequirements : redump.

Lemma redumps_Resources {F : Floats} :
  redumps validate_Resources (dump_Resources true).
Proof.
  redump_model. unfold validate_Resources, dump_Resources. redump_body.
Qed.
#[export] Hint Resolve redumps_Resources : redump.

Lemma redumps_Configuration {F : Floats} :
  redumps validate_Configuration (dump_Configuration true).
Proof.
  redump_model. unfold validate_Configuration, dump_Configuration.
  redump_body.
Qed.
#[export] Hint Resolve redumps_Configuration : redump.

Lemma redumps_Parameter {F : Floats} :
  redumps validate_Parameter (dump_Parameter true).
Proof.
  redump_model. unfold validate_Parameter, dump_Parameter. redump_body.
Qed.
#[export] Hint Resolve redumps_Parameter : redump.

Lemma redumps_OutputParameter {F : Floats} :
  redumps validate_OutputParameter (dump_OutputParameter true).
Proof.
  redump_model. unfold validate_OutputParameter, dump_OutputParameter.
  redump_body.
Qed.
#[export] Hint Resolve redumps_OutputParameter : redump.

(** The serialized record of a document that validates with at least
    one citation validates again, to the same record: nothing of the
    record is lost in serialization. *)
Theorem serialized_record_validates_to_itself {F : Floats} (doc : value) r :
  validate doc = Ok r -> citations r ≠ [] ->
  validate (serialize r) = Ok r.
Proof.
  unfold validate, validate_WorkflowSchema. intros H Hc.
  apply model_Ok_inv in H as (d & -> & H). fields_of H.
  projections.
  match goal with
  | H : field _ "citations" _ _ _ _ = Ok _ |- _ =>
      eapply field_redump in H;
      [ | solve [eauto 6 with redump] | by intros [= <-] ]
  end.
  redump_fields.
  unfold serialize, dump_WorkflowSchema. redump_body.
Qed.

Lemma serialized_record_validates_to_itself_witness :
  exists r, validate doc_rich = Ok r /\ validate (serialize r) = Ok r.
Proof.
  eexists. split; [reflexivity|].
  apply (serialized_record_validates_to_itself doc_rich);
    [reflexivity|discriminate].
Defined.

(** C7, as stated, fails in four ways.  The documents with
    [optional: "yes"] and with [optional: true] validate to one and the
    same record, whose serialization holds [true]: the field of the
    first document is altered, and no document, however the record is
    serialized, holds the fields of both; likewise [ram-min: 4096], an
    integer, comes back as a float.  The key [notes], which no
    field reads, is removed.  The key [schema_version], spelled by its
    internal name, is removed and comes back as [schema-version]. *)
Lemma round_trip_counterexample :
  (exists r,
     validate doc_optional_yes = Ok r
     /\ validate doc_optional_true = Ok r
     /\ at_path path_optional doc_optional_yes = Some (VStr "yes")
     /\ at_path path_optional (serialize r) = Some (VBool true)
     /\ ~ extends doc_optional_yes (serialize r)
     /\ ~ exists out, extends doc_optional_yes out
                    /\ extends doc_optional_true out)
  /\ (exists r,
     validate doc_ram_integer = Ok r
     /\ at_path path_ram_min doc_ram_integer = Some (VInt 4096)
     /\ (exists f, at_path path_ram_min (serialize r) = Some (VFloat f))
     /\ ~ extends doc_ram_integer (serialize r))
  /\ (exists r,
     validate doc_notes = Ok r
     /\ at_path [Key "notes"] doc_notes = Some (VStr "draft")
     /\ at_path [Key "notes"] (serialize r) = None
     /\ ~ extends doc_notes (serialize r))
  /\ (exists r,
     validate doc_version_by_name = Ok r
     /\ at_path [Key "schema_version"] doc_version_by_name
        = Some (VStr "1.0.0")
     /\ at_path [Key "schema_version"] (serialize r) = None
     /\ at_path [Key "schema-version"] (serialize r) = Some (VStr "1.0.0")
     /\ ~ extends doc_version_by_name (serialize r)).
Proof.
  refine (conj _ (conj _ (conj _ _))).
  - eexists. split; [reflexivity|]. split; [reflexivity|].
    split; [reflexivity|]. split; [reflexivity|]. split.
    + intros H.
      destruct (extends_at_path path_optional _ _ (VStr "yes") H eq_refl)
        as (v' & Hv' & ->%extends_str).
      discriminate Hv'.
    + intros (out & Hyes & Htrue).
      destruct (extends_at_path path_optional _ _ (VStr "yes") Hyes eq_refl)
        as (v1 & Hv1 & ->%extends_str).
      destruct (extends_at_path path_optional _ _ (VBool true) Htrue eq_refl)
        as (v2 & Hv2 & ->%extends_bool).
      congruence.
  - eexists. split; [reflexivity|]. split; [reflexivity|].
    split; [eexists; reflexivity|].
    intros H.
    destruct (extends_at_path path_ram_min _ _ (VInt 4096) H eq_refl)
      as (v' & Hv' & ->%extends_int).
    discriminate Hv'.
  - eexists. split; [reflexivity|]. split; [reflexivity|].
    split; [reflexivity|].
    intros H.
    destruct (extends_at_path [Key "notes"] _ _ (VStr "draft") H eq_refl)
      as (v' & Hv' & _).
    discriminate Hv'.
  - eexists. split; [reflexivity|]. split; [reflexivity|].
    split; [reflexivity|]. split; [reflexivity|].
    intros H.
    destruct (extends_at_path [Key "schema_version"] _ _ (VStr "1.0.0") H
                eq_refl) as (v' & Hv' & _).
    discriminate Hv'.
Qed.

(** The dump by internal name, the library's default, does not validate
    back to the record: the nested models read aliases only, so a
    value key dumped as [value_key] is not read back. *)
Lemma dump_by_name_drops_nested_aliases :
  exists r r',
    validate (manifest [] [param_value_key_by_alias]) = Ok r
    /\ validate (dump_WorkflowSchema false r) = Ok r'
    /\ value_key <$> inputs r = [Some "[THRESHOLD]"]
    /\ value_key <$> inputs r' = [None].
Proof. do 2 eexists. split; [reflexivity|]. split; [reflexivity|]. by split. Qed.

(** No error line of the validation is of the cross-field kind. *)
Lemma no_cross_field_line {F : Floats} (e : error) :
  kind_of (err_type e) <> CrossFieldConstraintViolation.
Proof. by destruct (err_type e). Qed.

(** * Further properties of the models *)

(** The key [k] is none of the keys listed in [Hk]. *)
Ltac unknown_key Hk :=
  cbn; intros;
  first [ discriminate | congruence
        | intros ->; apply Hk; repeat constructor ].

Ltac ignore_key Hk :=
  repeat match goal with
  | |- context [record_of (@field _ ?A ?c ?n ?a ?dflt ?val (<[?k := ?v]> ?d))] =>
      rewrite (record_of_field_insert_ne c n a dflt val d k v)
        by unknown_key Hk
  end.

Section ErrorLines.
Context {F : Floats}.
Implicit Types (d : dict) (v : value) (e : error).

(** X2: an error line of the [i]-th item of [inputs] is an error line
    of the document, with the path [inputs], [i] put before its own
    path; the other items and fields do not hide it. *)
Theorem input_error_reported_under_its_path d l i v e :
  d !! "inputs" = Some (VList l) -> l !! i = Some v ->
  fails_with e (validate_Parameter v) ->
  fails_with
    (Error (err_type e) (Key "inputs" :: Index i :: err_loc e) (err_input e))
    (validate (VDict d)).
Proof.
  intros Hl Hi He. unfold validate, validate_WorkflowSchema, model.
  pose proof (model_field_fails WorkflowSchema_Config "inputs" no_alias
                Required _ d _ _ Hl (list_v_fails 0 _ l i _ _ Hi He)) as H.
  blame_field H.
Qed.

End ErrorLines.

Lemma input_error_reported_under_its_path_witness :
  fails_with
    (Error (literal_error parameter_types)
       [Key "inputs"; Index 0; Key "type"] (VStr "docker"))
    (validate (VDict dict_bad_enums)).
Proof.
  apply (input_error_reported_under_its_path dict_bad_enums
           [obj [("id", VStr "in"); ("type", VStr "docker")]] 0
           (obj [("id", VStr "in"); ("type", VStr "docker")])
           (Error (literal_error parameter_types) [Key "type"]
              (VStr "docker")));
    [reflexivity|reflexivity|].
  apply Parameter_type_fails; [reflexivity|by apply docker_outside].
Defined.

Section UnknownKeys.
Context {F : Floats}.
Implicit Types (d : dict) (v : value).

(** X3: a key that is neither the alias nor the internal name of a field
    of [WorkflowSchema] is ignored: with or without it, whatever its
    value, the document validates to the same record or fails. *)
Theorem unknown_root_key_ignored d k v :
  k ∉ WorkflowSchema_keys ->
  record_of (validate (VDict (<[k := v]> d)))
  = record_of (validate (VDict d)).
Proof.
  intros Hk. unfold validate, validate_WorkflowSchema, model.
  rewrite !record_of_ap. by ignore_key Hk.
Qed.

(** X4: in the nested models a key that is not the alias of a field (its
    name when it has none) is ignored; this holds for the internal names
    of aliased fields and for hyphenated spellings that the classes do
    not declare, such as [input-folder]. *)
Theorem unknown_nested_key_ignored d k v :
  (k ∉ Parameter_keys ->
     record_of (validate_Parameter (VDict (<[k := v]> d)))
     = record_of (validate_Parameter (VDict d)))
  /\ (k ∉ OutputParameter_keys ->
     record_of (validate_OutputParameter (VDict (<[k := v]> d)))
     = record_of (validate_OutputParameter (VDict d)))
  /\ (k ∉ Configuration_keys ->
     record_of (validate_Configuration (VDict (<[k := v]> d)))
     = record_of (validate_Configuration (VDict d)))
  /\ (k ∉ Resources_keys ->
     record_of (validate_Resources (VDict (<[k := v]> d)))
     = record_of (validate_Resources (VDict d)))
  /\ (k ∉ CudaRequirements_keys ->
     record_of (validate_CudaRequirements (VDict (<[k := v]> d)))
     = record_of (validate_CudaRequirements (VDict d)))
  /\ (k ∉ ContainerImage_keys ->
     record_of (validate_ContainerImage (VDict (<[k := v]> d)))
     = record_of (validate_ContainerImage (VDict d)))
  /\ (k ∉ Author_keys ->
     record_of (validate_Author (VDict (<[k := v]> d)))
     = record_of (validate_Author (VDict d)))
  /\ (k ∉ Institution_keys ->
     record_of (validate_Institution (VDict (<[k := v]> d)))
     = record_of (validate_Institution (VDict d)))
  /\ (k ∉ Citation_keys ->
     record_of (validate_Citation (VDict (<[k := v]> d)))
     = record_of (validate_Citation (VDict d))).
Proof.
  repeat apply conj; intros Hk;
    unfold validate_Parameter, validate_OutputParameter,
      validate_Configuration, validate_Resources, validate_CudaRequirements,
      validate_ContainerImage, validate_Author, validate_Institution,
      validate_Citation, model;
    rewrite !record_of_ap; by ignore_key Hk.
Qed.

End UnknownKeys.

Lemma unknown_root_key_ignored_witness :
  record_of (validate (VDict (<["notes" := VStr "draft"]> dict_one_input)))
  = record_of (validate (VDict dict_one_input)).
Proof.
  apply unknown_root_key_ignored.
  apply (bool_decide_unpack _). reflexivity.
Defined.

Lemma unknown_nested_key_ignored_witness :
  record_of
    (validate_Configuration (VDict (<["input-folder" := VStr "/in"]> ∅)))
  = record_of (validate_Configuration (VDict (∅ : gmap string doc))).
Proof.
  apply (proj1 (proj2 (proj2 (unknown_nested_key_ignored
                                ∅ "input-folder" (VStr "/in"))))).
  apply (bool_decide_unpack _). reflexivity.
Defined.

Section ValidatedRecords.
Context {F : Floats}.
Implicit Types (d : dict) (v : value).

Lemma field_required_Ok {A} c n a (val : validator A) d x :
  field c n a Required val d = Ok x -> exists v, val v = Ok x.
Proof. by intros [H|[=]]%field_Ok_inv. Qed.

Lemma ContainerImage_type_valid v x :
  validate_ContainerImage v = Ok x -> image_type x ∈ container_types.
Proof.
  intros (d & -> & H)%model_Ok_inv. fields_of H.
  match goal with
  | H : field _ "type" _ _ _ _ = Ok _ |- _ =>
      apply field_required_Ok in H as (w & [_ Hw]%literal_v_Ok)
  end.
  done.
Qed.

Lemma Parameter_type_valid v x :
  validate_Parameter v = Ok x -> param_type x ∈ parameter_types.
Proof.
  intros (d & -> & H)%model_Ok_inv. fields_of H.
  match goal with
  | H : field _ "type" _ _ _ _ = Ok _ |- _ =>
      apply field_required_Ok in H as (w & [_ Hw]%literal_v_Ok)
  end.
  done.
Qed.

Lemma OutputParameter_type_valid v x :
  validate_OutputParameter v = Ok x -> out_type x ∈ output_types.
Proof.
  intros (d & -> & H)%model_Ok_inv. fields_of H.
  match goal with
  | H : field _ "type" _ _ _ _ = Ok _ |- _ =>
      apply field_required_Ok in H as (w & [_ Hw]%literal_v_Ok)
  end.
  done.
Qed.

Lemma list_v_Forall {A} n (val : validator A) (P : A -> Prop) v xs :
  (forall w x, val w = Ok x -> P x) ->
  list_v n val v = Ok xs -> Forall P xs.
Proof.
  intros HP (l & _ & Hl & _)%list_v_Ok.
  induction Hl; constructor; eauto.
Qed.

(** X5: in the record of any document that validates, every literal
    field holds one of its literals: the container type, the type of
    every input and of every output, and the problem class when it is
    set. *)
Theorem validated_record_holds_literals (doc : value) r :
  validate doc = Ok r ->
  image_type (container_image r) ∈ container_types
  /\ Forall (λ p, param_type p ∈ parameter_types) (inputs r)
  /\ Forall (λ o, out_type o ∈ output_types) (outputs r)
  /\ (forall c, problem_class r = Some c -> c ∈ problem_classes).
Proof.
  unfold validate, validate_WorkflowSchema.
  intros (d & -> & H)%model_Ok_inv. fields_of H. projections.
  repeat apply conj.
  - match goal with
    | H : field _ "container_image" _ _ _ _ = Ok _ |- _ =>
        apply field_required_Ok in H as (w & Hw)
    end.
    by eapply ContainerImage_type_valid.
  - match goal with
    | H : field _ "inputs" _ _ _ _ = Ok _ |- _ =>
        apply field_required_Ok in H as (w & Hw)
    end.
    eapply list_v_Forall; [|exact Hw]. apply Parameter_type_valid.
  - match goal with
    | H : field _ "outputs" _ _ _ _ = Ok _ |- _ =>
        apply field_Ok_inv in H as [(w & Hw)|[= <-]]; [|constructor]
    end.
    eapply list_v_Forall; [|exact Hw]. apply OutputParameter_type_valid.
  - intros c ->.
    match goal with
    | H : field _ "problem_class" _ _ _ _ = Ok _ |- _ =>
        apply field_Ok_inv in H as [(w & Hw)|[=]]
    end.
    destruct w; try done;
      by apply rmap_Ok in Hw as (s' & [_ Hs]%literal_v_Ok & [= <-]).
Qed.

Lemma validate_citations d r v :
  validate (VDict d) = Ok r -> d !! "citations" = Some v ->
  list_v 1 validate_Citation v = Ok (citations r).
Proof.
  unfold validate, validate_WorkflowSchema, model. intros H Hv. fields_of H.
  match goal with
  | H : field _ "citations" _ _ _ _ = Ok _ |- _ =>
      rewrite (field_present _ _ _ _ _ _ v) in H by done;
      by apply at_loc_Ok in H
  end.
Qed.

(** X6: the inputs and the outputs of the record are the items of the
    document's lists, validated one by one, in the same order and
    number. *)
Theorem parameters_validated_item_by_item d r :
  validate (VDict d) = Ok r ->
  (forall l, d !! "inputs" = Some (VList l) ->
     Forall2 (λ v p, validate_Parameter v = Ok p) l (inputs r))
  /\ (forall l, d !! "outputs" = Some (VList l) ->
     Forall2 (λ v o, validate_OutputParameter v = Ok o) l (outputs r)).
Proof.
  intros H. split; intros l Hl.
  - pose proof (validate_inputs d r _ H Hl) as (l' & [= <-] & Hall & _)%list_v_Ok.
    done.
  - pose proof (validate_outputs d r _ H Hl) as (l' & [= <-] & Hall & _)%list_v_Ok.
    done.
Qed.

(** X7: in the record of a document that validates, the list of
    citations is empty exactly when the document has no [citations] key:
    a [citations] key that is present holds at least one citation. *)
Theorem citations_empty_iff_key_absent d r :
  validate (VDict d) = Ok r ->
  (citations r = [] <-> d !! "citations" = None).
Proof.
  intros H. split.
  - intros Hc. destruct (d !! "citations") as [v|] eqn:Hv; [|done].
    pose proof (validate_citations d r v H Hv) as (l & _ & _ & Hn)%list_v_Ok.
    rewrite Hc in Hn. simpl in Hn. lia.
  - intros Hv. revert H. unfold validate, validate_WorkflowSchema, model.
    intros H. fields_of H. projections.
    match goal with
    | H : field _ "citations" _ _ _ _ = Ok _ |- _ =>
        rewrite field_absent_default in H by done; by injection H as <-
    end.
Qed.

Lemma lookup_field_insert_name_shadowed c n a d v w :
  n ≠ a -> d !! a = Some v ->
  lookup_field c n (alias a) (<[n := w]> d) = lookup_field c n (alias a) d.
Proof.
  intros Hna Ha. unfold lookup_field. cbn.
  by rewrite lookup_insert_ne, Ha.
Qed.

Lemma record_of_field_insert_name_shadowed {A} c n a
    (dflt : default_spec A) val d v w :
  n ≠ a -> d !! a = Some v ->
  record_of (field c n (alias a) dflt val (<[n := w]> d))
  = record_of (field c n (alias a) dflt val d).
Proof.
  intros Hna Ha. unfold field.
  rewrite (lookup_field_insert_name_shadowed c n a d v w) by done.
  destruct (lookup_field c n (alias a) d) as [[k' v']|]; [done|].
  by destruct dflt.
Qed.

(** X8: when a document spells an aliased field of the root model both
    ways, the key under the alias is the one that is read: the key under
    the internal name changes nothing, whatever it holds. *)
Theorem alias_takes_precedence n a d v w :
  (n, a) ∈ WorkflowSchema_aliases -> d !! a = Some v ->
  record_of (validate (VDict (<[n := w]> d)))
  = record_of (validate (VDict d)).
Proof.
  intros Hin Ha. unfold validate, validate_WorkflowSchema, model.
  rewrite !record_of_ap. unfold WorkflowSchema_aliases in Hin.
  repeat (apply elem_of_cons in Hin as [[= -> ->]|Hin];
    [unchanged_fields;
     by rewrite (record_of_field_insert_name_shadowed _ _ _ _ _ _ v) by done|]).
  by apply elem_of_nil in Hin.
Qed.

End ValidatedRecords.

Lemma validated_record_holds_literals_witness :
  exists r, validate doc_rich = Ok r
    /\ image_type (container_image r) ∈ container_types
    /\ Forall (λ p, param_type p ∈ parameter_types) (inputs r)
    /\ Forall (λ o, out_type o ∈ output_types) (outputs r)
    /\ (forall c, problem_class r = Some c -> c ∈ problem_classes).
Proof.
  eexists. split; [reflexivity|].
  apply (validated_record_holds_literals doc_rich). reflexivity.
Defined.

Lemma parameters_validated_item_by_item_witness :
  exists r, validate (VDict dict_one_input) = Ok r
    /\ Forall2 (λ v p, validate_Parameter v = Ok p)
         [param_threshold] (inputs r).
Proof.
  eexists. split; [reflexivity|].
  apply (proj1 (parameters_validated_item_by_item dict_one_input _ eq_refl)).
  reflexivity.
Defined.

Lemma citations_empty_iff_key_absent_witness :
  exists r, validate (VDict dict_one_input) = Ok r /\ citations r ≠ [].
Proof.
  eexists. split; [reflexivity|].
  intros Hc.
  by apply (citations_empty_iff_key_absent dict_one_input _ eq_refl) in Hc.
Defined.

Lemma alias_takes_precedence_witness :
  record_of
    (validate
       (VDict (<["schema_version" := VInt 2]>
                 (<["schema-version" := VStr "1.0.0"]> dict_without_version))))
  = record_of
      (validate
         (VDict (<["schema-version" := VStr "1.0.0"]> dict_without_version))).
Proof.
  apply (alias_takes_precedence "schema_version" "schema-version" _
           (VStr "1.0.0")).
  - apply list_elem_of_here.
  - reflexivity.
Defined.

Section KeptAsGiven.
Context {F : Floats}.
Implicit Types (d : dict) (v : value).

Lemma scalar_kept v x :
  optional_v scalar_v v = Ok x -> dump_opt dump_scalar x = v.
Proof. destruct v; simpl; try done; by intros [= <-]. Qed.

Lemma list_v_strs_inv l xs :
  list_v 0 str_v (VList l) = Ok xs -> l = VStr <$> xs.
Proof.
  intros (l' & [= <-] & Hl & _)%list_v_Ok.
  induction Hl as [|w x l xs Hx _ IH]; [done|].
  destruct w; try done. injection Hx as <-. by rewrite IH.
Qed.

Lemma str_or_list_kept v x :
  optional_v str_or_list_v v = Ok x -> dump_opt dump_str_or_list x = v.
Proof.
  destruct v as [| | | |s|l|]; try (simpl; try done; by intros [= <-]).
  unfold optional_v, str_or_list_v.
  destruct (list_v 0 str_v (VList l)) as [xs|] eqn:Hl; simpl; [|done].
  intros [= <-]. simpl. unfold dump_list. by rewrite (list_v_strs_inv l xs).
Qed.

(** X9: [default-value] is never converted.  When a parameter or an
    output parameter validates, its record holds the default value
    exactly as the document gives it: a string stays a string (also
    ["1"] or ["true"]), an integer an integer, a float a float, a boolean
    a boolean, and null is unset. *)
Theorem default_value_kept_as_given d v :
  d !! "default-value" = Some v ->
  (forall p, validate_Parameter (VDict d) = Ok p ->
     dump_opt dump_scalar (default_value p) = v)
  /\ (forall o, validate_OutputParameter (VDict d) = Ok o ->
     dump_opt dump_scalar (out_default_value o) = v).
Proof.
  intros Hv. split.
  - intros p. unfold validate_Parameter, model. intros H. fields_of H.
    projections.
    match goal with
    | H : field _ "default_value" _ _ _ _ = Ok _ |- _ =>
        rewrite (field_present _ _ _ _ _ _ v) in H by done;
        apply at_loc_Ok in H; by apply scalar_kept
    end.
  - intros o. unfold validate_OutputParameter, model. intros H. fields_of H.
    projections.
    match goal with
    | H : field _ "default_value" _ _ _ _ = Ok _ |- _ =>
        rewrite (field_present _ _ _ _ _ _ v) in H by done;
        apply at_loc_Ok in H; by apply scalar_kept
    end.
Qed.

(** X10: [cuda-compute-capability] is a string or a list of strings and
    is kept as the document gives it: when the CUDA requirements
    validate, the record holds the very string, or the very list, of the
    document (null is unset); no other value validates. *)
Theorem compute_capability_kept_as_given d v c :
  d !! "cuda-compute-capability" = Some v ->
  validate_CudaRequirements (VDict d) = Ok c ->
  dump_opt dump_str_or_list (cuda_compute_capability c) = v
  /\ (v = VNull \/ (exists s, v = VStr s) \/ (exists l, v = VList (VStr <$> l))).
Proof.
  intros Hv. unfold validate_CudaRequirements, model. intros H. fields_of H.
  projections.
  match goal with
  | H : field _ "cuda_compute_capability" _ _ _ _ = Ok _ |- _ =>
      rewrite (field_present _ _ _ _ _ _ v) in H by done;
      apply at_loc_Ok, str_or_list_kept in H
  end.
  split; [done|]. subst v.
  match goal with
  | |- context [dump_opt dump_str_or_list ?x] => destruct x as [[s|l]|]
  end; simpl; eauto.
Qed.

End KeptAsGiven.

Lemma default_value_kept_as_given_witness :
  exists p,
    validate_Parameter
      (VDict (<["default-value" := VStr "1"]> dict_string_label)) = Ok p
    /\ dump_opt dump_scalar (default_value p) = VStr "1".
Proof.
  eexists. split; [reflexivity|].
  destruct (default_value_kept_as_given
              (<["default-value" := VStr "1"]> dict_string_label) (VStr "1"))
    as [H _]; [reflexivity|].
  apply H. reflexivity.
Defined.

Lemma compute_capability_kept_as_given_witness :
  exists c, validate_CudaRequirements (VDict dict_cuda_list) = Ok c
    /\ dump_opt dump_str_or_list (cuda_compute_capability c)
       = (VList [VStr "7.0"; VStr "8.0"] : doc).
Proof.
  eexists. split; [reflexivity|].
  eapply proj1, (compute_capability_kept_as_given dict_cuda_list);
    reflexivity.
Defined.

Section NullAndAbsent.
Context {F : Floats}.
Implicit Types (d : dict) (v : value).

Lemma record_of_field_insert_no_alias {A} c n (dflt : default_spec A) val d v :
  record_of (field c n no_alias dflt val (<[n := v]> d)) = record_of (val v).
Proof. apply (record_of_field_insert_eq c n no_alias). Qed.

(** X11: for the nine optional fields of [Parameter], a key that holds
    null counts as an absent key: the parameter validates to the same
    record, or fails, with the key set to null and with the key
    removed. *)
Theorem null_is_absent_in_Parameter d k :
  k ∈ Parameter_optional_keys ->
  record_of (validate_Parameter (VDict (<[k := VNull]> d)))
  = record_of (validate_Parameter (VDict (delete k d))).
Proof.
  intros Hin. unfold validate_Parameter, model.
  rewrite !record_of_ap. unfold Parameter_optional_keys in Hin.
  repeat (apply elem_of_cons in Hin as [->|Hin];
    [unchanged_fields;
     first [ rewrite record_of_field_insert_alias, record_of_field_delete_alias
           | rewrite record_of_field_insert_no_alias,
               record_of_field_delete_eq ];
     reflexivity|]).
  by apply elem_of_nil in Hin.
Qed.

(** X12: the five list fields of [WorkflowSchema] are not optional: a
    key that holds null is not read as an absent key, it fails with a
    [list_type] line on the key. *)
Theorem null_is_no_list d k :
  k ∈ WorkflowSchema_list_keys -> d !! k = Some VNull ->
  fails_with (Error list_type [Key k] VNull) (validate (VDict d)).
Proof.
  intros Hin Hk. unfold validate, validate_WorkflowSchema, model.
  unfold WorkflowSchema_list_keys in Hin.
  repeat (apply elem_of_cons in Hin as [->|Hin];
    [match goal with
     | |- context [@field _ ?A ?c ?n no_alias ?dflt (list_v ?m ?val) d] =>
         let H := fresh in
         pose proof (model_field_fails c n no_alias dflt (list_v m val) d
                       VNull _ Hk (fails_with_fail list_type VNull)) as H;
         blame_field H
     end|]).
  by apply elem_of_nil in Hin.
Qed.

End NullAndAbsent.

Lemma null_is_absent_in_Parameter_witness :
  record_of (validate_Parameter (VDict (<["format" := VNull]> dict_image_bmp)))
  = record_of (validate_Parameter (VDict (delete "format" dict_image_bmp))).
Proof.
  apply null_is_absent_in_Parameter.
  apply (bool_decide_unpack _). reflexivity.
Defined.

Lemma null_is_no_list_witness :
  fails_with (Error list_type [Key "authors"] VNull)
    (validate (VDict dict_authors_null)).
Proof.
  apply null_is_no_list; [|reflexivity].
  apply (bool_decide_unpack _). reflexivity.
Defined.

Section TypeSpecificModels.
Context {F : Floats}.
Implicit Types (d : dict) (v : value).

Lemma field_required_iff {A} n a (val : validator A) d x :
  field no_config n a Required val d = Ok x
  <-> exists v, d !! default n a = Some v /\ val v = Ok x.
Proof.
  unfold field, lookup_field. cbn.
  destruct (d !! default n a) as [v|]; split.
  - intros H%at_loc_Ok. by exists v.
  - intros (w & [= <-] & Hw). by apply at_loc_Ok.
  - done.
  - by intros (w & [=] & _).
Qed.

Lemma field_required_missing {A} n a (val : validator A) d :
  d !! default n a = None ->
  fails_with (Error missing [Key (default n a)] (VDict d))
    (field no_config n a Required val d).
Proof.
  intros Ha. unfold field, lookup_field. cbn. rewrite Ha.
  apply list_elem_of_here.
Qed.

Lemma str_v_Ok v s : str_v v = Ok s <-> v = VStr s.
Proof. destruct v; simpl; split; try done; by intros [= <-]. Qed.

(** X13: what [ImageParameter] accepts: a dictionary validates exactly
    when [sub-type] (under the alias) holds one of the five sub-types
    and [format] one of the six image formats, and the record holds these
    two strings. *)
Theorem ImageParameter_accepts d r :
  validate_ImageParameter (VDict d) = Ok r
  <-> d !! "sub-type" = Some (VStr (image_sub_type r))
      /\ image_sub_type r ∈ image_sub_types
      /\ d !! "format" = Some (VStr (image_format r))
      /\ image_format r ∈ image_formats.
Proof.
  unfold validate_ImageParameter, model. split.
  - intros H. fields_of H. projections.
    repeat match goal with
    | H : field _ _ _ _ _ _ = Ok _ |- _ =>
        apply field_required_iff in H as (? & ? & [-> ?]%literal_v_Ok)
    end.
    done.
  - destruct r as [st fm]. projections. intros (Hs & Hsin & Hf & Hfin).
    rewrite (field_present _ "sub_type" (alias "sub-type") _ _ _ _ Hs).
    rewrite (field_present _ "format" no_alias _ _ _ _ Hf).
    by rewrite !literal_v_in.
Qed.

(** X14: what [FileParameter] and [ArrayParameter] accept: [format] must
    be a string, any string for a file and ["npy"] or ["npz"] for an
    array, and the record holds it. *)
Theorem FileParameter_ArrayParameter_accept d :
  (forall r, validate_FileParameter (VDict d) = Ok r
     <-> d !! "format" = Some (VStr (file_format r)))
  /\ (forall r, validate_ArrayParameter (VDict d) = Ok r
     <-> d !! "format" = Some (VStr (array_format r))
         /\ array_format r ∈ array_formats).
Proof.
  split; intros r.
  - unfold validate_FileParameter, model. split.
    + intros H. fields_of H. projections.
      match goal with
      | H : field _ _ _ _ _ _ = Ok _ |- _ =>
          apply field_required_iff in H as (? & ? & ->%str_v_Ok)
      end.
      done.
    + destruct r as [fm]. projections. intros Hf.
      by rewrite (field_present _ "format" no_alias _ _ _ _ Hf).
  - unfold validate_ArrayParameter, model. split.
    + intros H. fields_of H. projections.
      match goal with
      | H : field _ _ _ _ _ _ = Ok _ |- _ =>
          apply field_required_iff in H as (? & ? & [-> ?]%literal_v_Ok)
      end.
      done.
    + destruct r as [fm]. projections. intros [Hf Hfin].
      rewrite (field_present _ "format" no_alias _ _ _ _ Hf).
      by rewrite literal_v_in.
Qed.

(** X15: the required keys of the nested models are reported when they
    are absent: [id] and [type] of a parameter, and [sub-type] of an
    [ImageParameter], which is looked up under the alias only, so that a
    key [sub_type] does not stand in for it. *)
Theorem nested_required_keys_reported d :
  (d !! "id" = None ->
     fails_with (Error missing [Key "id"] (VDict d))
       (validate_Parameter (VDict d)))
  /\ (d !! "type" = None ->
     fails_with (Error missing [Key "type"] (VDict d))
       (validate_Parameter (VDict d)))
  /\ (d !! "sub-type" = None ->
     fails_with (Error missing [Key "sub-type"] (VDict d))
       (validate_ImageParameter (VDict d))).
Proof.
  repeat apply conj; intros Hk;
    unfold validate_Parameter, validate_ImageParameter, model.
  - pose proof (field_required_missing "id" no_alias str_v d Hk) as H.
    blame_field H.
  - pose proof (field_required_missing "type" no_alias
                  (literal_v parameter_types) d Hk) as H.
    blame_field H.
  - pose proof (field_required_missing "sub_type" (alias "sub-type")
                  (literal_v image_sub_types) d Hk) as H.
    blame_field H.
Qed.

Lemma field_default_when_absent {A} n a (x : A) val d :
  d !! default n a = None -> field no_config n a (Default x) val d = Ok x.
Proof. intros Ha. unfold field, lookup_field. cbn. by rewrite Ha. Qed.

Lemma field_literal_weaken c n a L L' d x :
  L ⊆ L' ->
  field c n a Required (literal_v L) d = Ok x ->
  field c n a Required (literal_v L') d = Ok x.
Proof.
  intros HL. unfold field.
  destruct (lookup_field c n a d) as [[k v]|]; [|done].
  intros [-> Hx]%at_loc_Ok%literal_v_Ok. apply at_loc_Ok, literal_v_in.
  by apply HL.
Qed.

(** X16: an output parameter is a parameter.  A dictionary that
    validates as an [OutputParameter] and has neither [format] nor
    [sub-type] validates as a [Parameter], to the record with the same
    nine fields and no type-specific ones. *)
Theorem output_parameter_is_parameter d o :
  validate_OutputParameter (VDict d) = Ok o ->
  d !! "format" = None -> d !! "sub-type" = None ->
  validate_Parameter (VDict d) = Ok (as_parameter o).
Proof.
  unfold validate_OutputParameter, validate_Parameter, model.
  intros H Hf Hs. fields_of H.
  match goal with
  | Ht : field _ "type" _ _ _ _ = Ok _ |- _ =>
      apply (field_literal_weaken _ _ _ _ parameter_types) in Ht;
      [|intros s; unfold output_types, parameter_types;
        rewrite !elem_of_cons; tauto]
  end.
  rewrite (field_default_when_absent "format" no_alias) by done.
  rewrite (field_default_when_absent "sub_type" (alias "sub-type")) by done.
  repeat match goal with
  | H : @field _ _ _ _ _ _ _ _ = Ok _ |- _ => rewrite H; clear H
  end.
  reflexivity.
Qed.

End TypeSpecificModels.

Lemma nested_required_keys_reported_witness :
  fails_with (Error missing [Key "sub-type"] (VDict dict_image_by_name))
    (validate_ImageParameter (VDict dict_image_by_name)).
Proof.
  apply (proj2 (proj2 (nested_required_keys_reported dict_image_by_name))).
  reflexivity.
Defined.

Lemma output_parameter_is_parameter_witness :
  exists o, validate_OutputParameter (VDict dict_output_count) = Ok o
    /\ validate_Parameter (VDict dict_output_count) = Ok (as_parameter o).
Proof.
  eexists. split; [reflexivity|].
  apply output_parameter_is_parameter; reflexivity.
Defined.

Lemma missing_required_field_reported_witness :
  fails_with (Error missing [Key "schema-version"] (VDict dict_without_version))
    (validate (VDict dict_without_version)).
Proof.
  apply (missing_required_field_reported dict_without_version
           "schema_version" "schema-version");
    [|reflexivity|reflexivity].
  apply (bool_decide_unpack _). reflexivity.
Defined.

Lemma empty_citations_reported_witness :
  fails_with (Error (too_short 1 0) [Key "citations"] (VList []))
    (validate (VDict dict_citations_empty)).
Proof. apply (empty_citations_reported dict_citations_empty). reflexivity. Defined.

(** ** Documents that come back from serialization *)

Section RoundTripDocuments.
Context {F : Floats}.
Implicit Types (d : dict) (v : value).

Lemma completes_extends : forall a b, completes a b -> extends a b.
Proof.
  fix IH 3. intros a b [v|l1 l2 Hl|d1 d2 H1 H2].
  - constructor.
  - apply extends_list. revert l1 l2 Hl. fix IHl 3.
    intros l1 l2 [|x y l l' Hxy Hl]; constructor.
    + by apply IH.
    + by apply IHl.
  - apply extends_dict. intros k v1 Hk.
    destruct (H1 k v1 Hk) as (v2 & Hk2 & Hc).
    exists v2. split; [done|]. by apply IH.
Qed.

Lemma keeps_str : keeps any_value str_v VStr.
Proof. intros v x _ ->%str_v_Ok. constructor. Qed.

Lemma keeps_literal L : keeps any_value (literal_v L) VStr.
Proof. intros v x _ [-> _]%literal_v_Ok. constructor. Qed.

Lemma keeps_bool : keeps is_bool bool_v VBool.
Proof. intros v x [b ->] [= <-]. constructor. Qed.

Lemma keeps_float : keeps is_float float_v VFloat.
Proof. intros v x [f ->] [= <-]. constructor. Qed.

Lemma keeps_scalar : keeps any_value scalar_v dump_scalar.
Proof.
  intros v x _ H. destruct v; try done; injection H as <-; constructor.
Qed.

Lemma keeps_strs n : keeps any_value (list_v n str_v) (dump_list VStr).
Proof.
  intros v xs _ H.
  assert (exists l, v = VList l) as [l ->].
  { apply list_v_Ok in H as (l & -> & _). by exists l. }
  assert (list_v 0 str_v (VList l) = Ok xs) as Hl.
  { apply list_v_Ok in H as (l' & [= <-] & Hl & _). apply list_v_Ok.
    exists l. split; [done|]. split; [done|lia]. }
  apply list_v_strs_inv in Hl as ->. constructor.
Qed.

Lemma keeps_str_or_list : keeps any_value str_or_list_v dump_str_or_list.
Proof.
  intros v x _ H.
  assert (optional_v str_or_list_v v = Ok (Some x)) as Hopt.
  { destruct v; try done; unfold optional_v; by rewrite H. }
  apply str_or_list_kept in Hopt. simpl in Hopt. rewrite Hopt. constructor.
Qed.

Lemma keeps_optional {A} P (val : validator A) dmp :
  keeps P val dmp -> keeps (nullable P) (optional_v val) (dump_opt dmp).
Proof.
  intros Hval v x [->|Hv] H.
  - injection H as <-. constructor.
  - destruct v; try (apply rmap_Ok in H as (a & H & ->); by apply Hval).
    injection H as <-. constructor.
Qed.

Lemma keeps_list {A} n P (val : validator A) dmp :
  keeps P val dmp -> keeps (items P) (list_v n val) (dump_list dmp).
Proof.
  intros Hval v xs (l & -> & HP) (l' & [= <-] & Hl & _)%list_v_Ok.
  apply completes_list. apply Forall2_fmap_r.
  induction Hl as [|w x l xs Hx _ IH]; [constructor|].
  apply Forall_cons in HP as [Hw HP]. constructor; [by apply Hval|by apply IH].
Qed.

Lemma use_keeps {A} P (val : validator A) dmp v x :
  keeps P val dmp -> P v -> val v = Ok x -> completes v (dmp x).
Proof. intros H. apply H. Qed.

Lemma lookup_field_None c n a d keys :
  only_keys keys d -> d !! default n a = None ->
  n = default n a \/ n ∉ keys ->
  lookup_field c n a d = None.
Proof.
  intros Hkeys Ha Hn. unfold lookup_field. cbn. rewrite Ha.
  destruct (by_name c); [|done].
  destruct (d !! n) as [v|] eqn:Hdn; [|done].
  destruct Hn as [Hn|Hn]; [by rewrite Hn, Ha in Hdn|].
  by destruct (Hn (Hkeys n v Hdn)).
Qed.

Lemma field_absent_inv {A} c n a (dflt : default_spec A) val d x :
  lookup_field c n a d = None ->
  field c n a dflt val d = Ok x -> dflt = Default x.
Proof. unfold field. intros ->. destruct dflt; [done|]. by intros [= ->]. Qed.

End RoundTripDocuments.

Create HintDb keepsdb discriminated.
#[export] Hint Resolve keeps_str keeps_literal keeps_bool keeps_float
  keeps_scalar keeps_str_or_list keeps_strs | 0 : keepsdb.
#[export] Hint Resolve keeps_optional keeps_list | 2 : keepsdb.

(** The value under a present key comes back. *)
Ltac key_kept d v1 Hk :=
  match goal with
  | H : @field _ _ ?c ?n ?a ?dflt ?val d = Ok ?x |- _ =>
      rewrite (field_present c n a dflt val d v1 Hk) in H;
      apply at_loc_Ok in H;
      let K := fresh "K" in
      eassert (keeps _ val _) as K by (eauto 6 with keepsdb);
      lazymatch type of K with
      | keeps ?P _ ?dmp =>
          exists (dmp x); split; [reflexivity|];
          apply (K v1 x);
          [ first [ exact I | right; exact I
                  | match goal with
                    | Hs : at_key _ _ d |- _ => exact (Hs v1 Hk)
                    end ]
          | exact H ]
      end
  end.

(** An absent key comes back as a default, or not at all. *)
Ltac key_absent d keys Hkeys Hk :=
  match goal with
  | H : @field _ _ ?c ?n ?a ?dflt ?val d = Ok ?x |- _ =>
      apply (field_absent_inv c n a dflt val d x) in H;
      [ | apply (lookup_field_None c n a d keys Hkeys Hk);
          first [ left; reflexivity
                | right; apply (bool_decide_unpack _); reflexivity ] ];
      first [ discriminate H
            | injection H as <-;
              first [ right; left; reflexivity | right; right; reflexivity ] ]
  end.

(** A model whose fields keep what they accepted: the keys of the
    dictionary are gone through one by one. *)
Ltac keeps_model keys :=
  let v := fresh "v" in let x := fresh "x" in let d := fresh "d" in
  let Hkeys := fresh "Hkeys" in let Hshapes := fresh "Hshapes" in
  let H := fresh "H" in
  intros v x (d & -> & Hkeys & Hshapes) H;
  repeat (apply Forall_cons in Hshapes as [? Hshapes]); clear Hshapes;
  cbn [fst snd] in *;
  unfold model in H; fields_of H;
  unfold obj, key; projections;
  apply completes_dict;
  [ let k := fresh "k" in let v1 := fresh "v1" in let Hk := fresh "Hk" in
    let Hin := fresh "Hin" in
    intros k v1 Hk; pose proof (Hkeys k v1 Hk) as Hin; unfold keys in Hin;
    repeat (apply elem_of_cons in Hin as [->|Hin]; [key_kept d v1 Hk|]);
    by apply elem_of_nil in Hin
  | let k := fresh "k" in let Hk := fresh "Hk" in
    let Hin := fresh "Hin" in
    intros k Hk; destruct (decide (k ∈ keys)) as [Hin|Hin];
    [ unfold keys in Hin;
      repeat (apply elem_of_cons in Hin as [->|Hin];
              [key_absent d keys Hkeys Hk|]);
      by apply elem_of_nil in Hin
    | left; by apply not_elem_of_list_to_map_1 ] ].

Lemma keeps_Author {F : Floats} :
  keeps plain_Author validate_Author (dump_Author true).
Proof. unfold validate_Author, dump_Author. keeps_model Author_keys. Qed.
#[export] Hint Resolve keeps_Author | 0 : keepsdb.

Lemma keeps_Parameter {F : Floats} :
  keeps plain_Parameter validate_Parameter (dump_Parameter true).
Proof.
  unfold validate_Parameter, dump_Parameter. keeps_model Parameter_keys.
Qed.
#[export] Hint Resolve keeps_Parameter | 0 : keepsdb.

Lemma keeps_Institution {F : Floats} :
  keeps plain_Institution validate_Institution (dump_Institution true).
Proof.
  unfold validate_Institution, dump_Institution. keeps_model Institution_keys.
Qed.
#[export] Hint Resolve keeps_Institution | 0 : keepsdb.

Lemma keeps_Citation {F : Floats} :
  keeps plain_Citation validate_Citation (dump_Citation true).
Proof. unfold validate_Citation, dump_Citation. keeps_model Citation_keys. Qed.
#[export] Hint Resolve keeps_Citation | 0 : keepsdb.

Lemma keeps_ContainerImage {F : Floats} :
  keeps plain_ContainerImage validate_ContainerImage (dump_ContainerImage true).
Proof.
  unfold validate_ContainerImage, dump_ContainerImage.
  keeps_model ContainerImage_keys.
Qed.
#[export] Hint Resolve keeps_ContainerImage | 0 : keepsdb.

Lemma keeps_CudaRequirements {F : Floats} :
  keeps plain_CudaRequirements validate_CudaRequirements
    (dump_CudaRequirements true).
Proof.
  unfold validate_CudaRequirements, dump_CudaRequirements.
  keeps_model CudaRequirements_keys.
Qed.
#[export] Hint Resolve keeps_CudaRequirements | 0 : keepsdb.

Lemma keeps_Resources {F : Floats} :
  keeps plain_Resources validate_Resources (dump_Resources true).
Proof.
  unfold validate_Resources, dump_Resources. keeps_model Resources_keys.
Qed.
#[export] Hint Resolve keeps_Resources | 0 : keepsdb.

Lemma keeps_Configuration {F : Floats} :
  keeps plain_Configuration validate_Configuration (dump_Configuration true).
Proof.
  unfold validate_Configuration, dump_Configuration.
  keeps_model Configuration_keys.
Qed.
#[export] Hint Resolve keeps_Configuration | 0 : keepsdb.

Lemma keeps_OutputParameter {F : Floats} :
  keeps plain_OutputParameter validate_OutputParameter
    (dump_OutputParameter true).
Proof.
  unfold validate_OutputParameter, dump_OutputParameter.
  keeps_model OutputParameter_keys.
Qed.
#[export] Hint Resolve keeps_OutputParameter | 0 : keepsdb.

Lemma keeps_WorkflowSchema {F : Floats} :
  keeps plain_document validate_WorkflowSchema (dump_WorkflowSchema true).
Proof.
  unfold validate_WorkflowSchema, dump_WorkflowSchema.
  keeps_model WorkflowSchema_alias_keys.
Qed.

(** C7, as amended: for every valid document that is plain (every field
    spelled by its alias, no key unknown to the models, and the fields
    declared [bool] or [float] given as a boolean or a float), the
    serialized record holds every field of the document, none removed and
    none altered, and what it holds besides are defaults (null or the
    empty list). *)
Theorem plain_document_comes_back {F : Floats} (doc : value) r :
  plain_document doc -> validate doc = Ok r ->
  extends doc (serialize r) /\ completes doc (serialize r).
Proof.
  intros Hplain H.
  assert (completes doc (serialize r)) as Hc
    by (by apply (keeps_WorkflowSchema doc r)).
  split; [by apply completes_extends|done].
Qed.

Section PlainDocuments.
Context {F : Floats}.

Lemma dict_of_obj keys shapes (l : list (string * value)) :
  Forall (λ kv, kv.1 ∈ keys) l ->
  Forall (λ s, at_key s.1 s.2 (list_to_map l)) shapes ->
  dict_of keys shapes (obj l).
Proof.
  intros Hl Hs. exists (list_to_map l). split; [done|]. split; [|done].
  intros k v Hk%elem_of_list_to_map_2.
  by apply (proj1 (Forall_forall _ _) Hl (k, v)).
Qed.

Lemma at_key_present k (P : value -> Prop) (d : dict) w :
  d !! k = Some w -> P w -> at_key k P d.
Proof. intros Hk Hw v. rewrite Hk. by intros [= <-]. Qed.

Lemma at_key_absent k (P : value -> Prop) (d : dict) :
  d !! k = None -> at_key k P d.
Proof. intros Hk v. by rewrite Hk. Qed.

Lemma items_list (P : value -> Prop) l : Forall P l -> items P (VList l).
Proof. intros. by exists l. Qed.

End PlainDocuments.

(** Shows that a document written out in full is plain. *)
Ltac plain :=
  unfold plain_document, plain_Author, plain_Institution, plain_Citation,
    plain_ContainerImage, plain_CudaRequirements, plain_Resources,
    plain_Configuration, plain_Parameter, plain_OutputParameter;
  first
  [ exact I
  | solve [left; reflexivity]
  | solve [eexists; reflexivity]
  | apply items_list;
    repeat (apply List.Forall_cons; [plain|]); apply List.Forall_nil
  | apply dict_of_obj;
    [ repeat (apply List.Forall_cons;
              [apply (bool_decide_unpack _); reflexivity|]);
      apply List.Forall_nil
    | repeat (apply List.Forall_cons;
              [ first [ apply at_key_absent; reflexivity
                      | eapply at_key_present;
                        [reflexivity|cbn [fst snd]; plain] ]|]);
      apply List.Forall_nil ]
  | right; plain ].

Lemma plain_document_comes_back_witness :
  exists r, validate doc_plain = Ok r
    /\ extends doc_plain (serialize r) /\ completes doc_plain (serialize r).
Proof.
  eexists. split; [reflexivity|].
  apply plain_document_comes_back; [|reflexivity].
  unfold doc_plain, author_inst_x, param_optional. plain.
Defined.

(** ** Error lines of a failed validation *)

Create HintDb explainsdb discriminated.

Section Explained.
Context {F : Floats}.
Implicit Types (d : dict) (v : value) (e : error).

Lemma explains_Ok {A} (a : A) : explains (Ok a).
Proof. by intros es. Qed.

Lemma explains_fail {A} t v : explains (fail (A := A) t v).
Proof. by intros es [= <-]. Qed.

Lemma explains_at_loc {A} i (r : result A) : explains r -> explains (at_loc i r).
Proof.
  intros Hr es. destruct r as [a|es']; simpl; [done|]. intros [= <-].
  specialize (Hr es' eq_refl). by destruct es'.
Qed.

Lemma explains_rmap {A B} (f : A -> B) (r : result A) :
  explains r -> explains (rmap f r).
Proof. intros Hr es. destruct r; simpl; [done|]. intros [= <-]. by apply Hr. Qed.

Lemma explains_ap {A B} (rf : result (A -> B)) (ra : result A) :
  explains rf -> explains ra -> explains (rf <*> ra).
Proof.
  intros Hf Ha es. destruct rf as [f|es1], ra as [a|es2]; simpl; try done.
  - intros [= <-]. by apply Ha.
  - intros [= <-]. by apply Hf.
  - intros [= <-]. specialize (Hf es1 eq_refl). by destruct es1.
Qed.

Lemma explains_str v : explains (str_v v).
Proof. destruct v; first [apply explains_Ok | apply explains_fail]. Qed.

Lemma explains_bool v : explains (bool_v v).
Proof.
  destruct v; simpl;
    repeat match goal with
    | |- explains (match ?x with _ => _ end) => destruct x
    end;
    first [apply explains_Ok | apply explains_fail].
Qed.

Lemma explains_float v : explains (float_v v).
Proof.
  destruct v; simpl;
    repeat match goal with
    | |- explains (match ?x with _ => _ end) => destruct x
    end;
    first [apply explains_Ok | apply explains_fail].
Qed.

Lemma explains_literal L v : explains (literal_v L v).
Proof.
  destruct v; simpl; try apply explains_fail.
  case_bool_decide; [apply explains_Ok | apply explains_fail].
Qed.

Lemma explains_scalar v : explains (scalar_v v).
Proof. destruct v; simpl; try apply explains_Ok; by intros es [= <-]. Qed.

Lemma explains_optional {A} (val : validator A) v :
  (forall w, explains (val w)) -> explains (optional_v val v).
Proof.
  intros Hval. destruct v; simpl; try apply explains_rmap, Hval.
  apply explains_Ok.
Qed.

Lemma explains_list_items {A} (val : validator A) i l :
  (forall w, explains (val w)) -> explains (list_items val i l).
Proof.
  intros Hval. revert i. induction l as [|w l IH]; intros i; cbn [list_items].
  - apply explains_Ok.
  - apply explains_ap; [apply explains_ap|apply IH].
    + apply explains_Ok.
    + apply explains_at_loc, Hval.
Qed.

Lemma explains_list {A} n (val : validator A) v :
  (forall w, explains (val w)) -> explains (list_v n val v).
Proof.
  intros Hval. destruct v as [| | | | |l|]; try apply explains_fail.
  unfold list_v. pose proof (explains_list_items val 0 l Hval) as Hl.
  destruct (list_items val 0 l) as [xs|es]; [|done].
  destruct (length xs <? n)%nat; [apply explains_fail|apply explains_Ok].
Qed.

Lemma explains_str_or_list v : explains (str_or_list_v v).
Proof.
  destruct v; cbn [str_or_list_v]; try (by intros es [= <-]);
    try apply explains_Ok.
  destruct (at_loc _ _) as [xs|es']; [apply explains_Ok|by intros es [= <-]].
Qed.

Lemma explains_field {A} c n a (dflt : default_spec A) val d :
  (forall w, explains (val w)) -> explains (field c n a dflt val d).
Proof.
  intros Hval. unfold field. destruct (lookup_field c n a d) as [[k v]|].
  - apply explains_at_loc, Hval.
  - destruct dflt; [by intros es [= <-]|apply explains_Ok].
Qed.

Lemma explains_model {A} (body : dict -> result A) v :
  (forall d, explains (body d)) -> explains (model body v).
Proof. intros Hb. destruct v; try apply explains_fail. apply Hb. Qed.

End Explained.

#[export] Hint Resolve explains_str explains_bool explains_float
  explains_literal explains_scalar explains_str_or_list explains_optional
  explains_list : explainsdb.

(** Every field of the model explains its failure. *)
Ltac explains_fields :=
  apply explains_model; intros ?;
  repeat (apply explains_ap; [|apply explains_field; eauto 6 with explainsdb]);
  apply explains_Ok.

Lemma explains_Author {F : Floats} v : explains (validate_Author v).
Proof. explains_fields. Qed.
#[export] Hint Resolve explains_Author : explainsdb.

Lemma explains_Institution {F : Floats} v : explains (validate_Institution v).
Proof. explains_fields. Qed.
#[export] Hint Resolve explains_Institution : explainsdb.

Lemma explains_Citation {F : Floats} v : explains (validate_Citation v).
Proof. explains_fields. Qed.
#[export] Hint Resolve explains_Citation : explainsdb.

Lemma explains_ContainerImage {F : Floats} v :
  explains (validate_ContainerImage v).
Proof. explains_fields. Qed.
#[export] Hint Resolve explains_ContainerImage : explainsdb.

Lemma explains_CudaRequirements {F : Floats} v :
  explains (validate_CudaRequirements v).
Proof. explains_fields. Qed.
#[export] Hint Resolve explains_CudaRequirements : explainsdb.

Lemma explains_Resources {F : Floats} v : explains (validate_Resources v).
Proof. explains_fields. Qed.
#[export] Hint Resolve explains_Resources : explainsdb.

Lemma explains_Configuration {F : Floats} v :
  explains (validate_Configuration v).
Proof. explains_fields. Qed.
#[export] Hint Resolve explains_Configuration : explainsdb.

Lemma explains_Parameter {F : Floats} v : explains (validate_Parameter v).
Proof. explains_fields. Qed.
#[export] Hint Resolve explains_Parameter : explainsdb.

Lemma explains_OutputParameter {F : Floats} v :
  explains (validate_OutputParameter v).
Proof. explains_fields. Qed.
#[export] Hint Resolve explains_OutputParameter : explainsdb.

Section ErrorPaths.
Context {F : Floats}.
Implicit Types (d : dict) (v : value) (e : error).




End ErrorPaths.

